(** * Client metrics screen: the metrics data layer

    A shallow embedding of [src/app/client-metrics.tsx] (the metric catalog,
    the trend and statistics derivations, the overview counters and the
    save handler) together with a model of the metric store the screen
    imports from [@/utils/metricsStorage].

    JavaScript numbers are IEEE 754 binary64 values: they are embedded as
    Rocq's primitive [float], so that [NaN], the two zeros and the
    infinities behave as they do in the program. *)

From Stdlib Require Import ZArith List String Ascii Bool Lia.
From Stdlib Require Import Uint63 Floats DecimalString.
From stdpp Require Import gmap strings list fin_maps.

Local Open Scope Z_scope.

(** ** JavaScript numbers *)

Module Number.

Definition number := float.

(** [Number.isNaN] / the global [isNaN] on a number. *)
Definition isNaN (x : number) : bool := PrimFloat.is_nan x.

(** [Number.isFinite]. *)
Definition isFinite (x : number) : bool := PrimFloat.is_finite x.

(** [ToBoolean] of a number: [+0], [-0] and [NaN] are falsy. *)
Definition truthy (x : number) : bool :=
  negb (PrimFloat.eqb x PrimFloat.zero || isNaN x).

(** The number of an array length. *)
Definition of_nat (n : nat) : number :=
  PrimFloat.of_uint63 (Uint63.of_Z (Z.of_nat n)).

(** A value that is not [NaN]. *)
Definition notNaN (v : number) : Prop := isNaN v = false.

(** [a > b] on numbers is [b < a]. *)
Definition gt (a b : number) : bool := PrimFloat.ltb b a.

(** [a >= b] on numbers is [b <= a]. *)
Definition ge (a b : number) : bool := PrimFloat.leb b a.

End Number.

Abbreviation number := Number.number.
Abbreviation notNaN := Number.notNaN.

(** ** Data model ([Entry], [Metric], [MetricData] of [@/utils/metricsStorage]) *)

Record Entry := mkEntry {
  value : number;
  unit : string;
  date : string;
  time : string
}.

(** [currentValue] and [lastUpdated] are [undefined] on a metric that has no
    data, hence the options. *)
Record Metric := mkMetric {
  entries : list Entry;
  currentValue : option number;
  lastUpdated : option string
}.

(** A JavaScript object used as a map from metric key to [Metric]. *)
Abbreviation MetricData := (gmap string Metric).

(** ** The metric catalog *)

Record MetricConfig := mkConfig {
  key : string;
  name : string;
  cunit : string;
  icon : string;
  color : string
}.

Definition metricConfigs : list MetricConfig :=
  [ mkConfig "weight" "Weight" "kg" "⚖️" "#3B82F6";
    mkConfig "chest" "Chest" "in" "💪" "#10B981";
    mkConfig "shoulders" "Shoulders" "in" "🏋️" "#F59E0B";
    mkConfig "waist" "Waist" "in" "📏" "#EF4444";
    mkConfig "thigh" "Thigh" "in" "🦵" "#8B5CF6";
    mkConfig "hip" "Hip" "in" "📐" "#EC4899";
    mkConfig "bodyFat" "Body Fat" "%" "📊" "#06B6D4";
    mkConfig "bicep" "Bicep" "in" "💪" "#84CC16";
    mkConfig "waterIntake" "Water Intake" "L" "💧" "#0EA5E9";
    mkConfig "steps" "Steps" "steps" "👣" "#F97316" ].

(** [metricConfigs.find(c => c.key === k)]. *)
Definition findConfig (k : string) : option MetricConfig :=
  List.find (fun c => String.eqb (key c) k) metricConfigs.

(** ** Trend *)

Record Change := mkChange {
  change_value : number;
  isPositive : bool
}.

(** [getMetricChange]: [None] is the [null] result. The two index reads come
    after the length guard, so they are always defined; the last branch of
    the match is the [TypeError] that the guard rules out. *)
Definition getMetricChange (metric : Metric) : option Change :=
  if (length (entries metric) <? 2)%nat then None
  else
    match entries metric !! 0%nat, entries metric !! 1%nat with
    | Some e0, Some e1 =>
        let latest := value e0 in
        let previous := value e1 in
        let change := PrimFloat.sub latest previous in
        Some {| change_value := PrimFloat.abs change;
                isPositive := Number.ge change PrimFloat.zero |}
    | _, _ => None
    end.

(** ** Built-ins used by the screen *)

(** A value placed as a text child, or the result of a string conversion:
    either a literal string, or a number converted by [Number::toString],
    which is kept symbolic. *)
Inductive text :=
  | Str (s : string)
  | Num (x : number).

Module Math.

Definition is_pzero (x : number) : bool :=
  match PrimFloat.classify x with PZero => true | _ => false end.

Definition is_nzero (x : number) : bool :=
  match PrimFloat.classify x with NZero => true | _ => false end.

(** The loop of [Math.max] over the already coerced arguments. *)
Fixpoint max_loop (highest : number) (coerced : list number) : number :=
  match coerced with
  | [] => highest
  | x :: rest =>
      if Number.isNaN x then PrimFloat.nan
      else
        let highest :=
          if is_pzero x && is_nzero highest then PrimFloat.zero else highest in
        let highest := if Number.gt x highest then x else highest in
        max_loop highest rest
  end.

(** [Math.max(...args)]: starts from [-Infinity]. *)
Definition max (args : list number) : number :=
  max_loop PrimFloat.neg_infinity args.

(** The loop of [Math.min]. *)
Fixpoint min_loop (lowest : number) (coerced : list number) : number :=
  match coerced with
  | [] => lowest
  | x :: rest =>
      if Number.isNaN x then PrimFloat.nan
      else
        let lowest :=
          if is_nzero x && is_pzero lowest then PrimFloat.neg_zero else lowest in
        let lowest := if PrimFloat.ltb x lowest then x else lowest in
        min_loop lowest rest
  end.

(** [Math.min(...args)]: starts from [+Infinity]. *)
Definition min (args : list number) : number :=
  min_loop PrimFloat.infinity args.

End Math.

Module ToFixed.

(** The integer [n] for which [n / 10 - x] is as close to zero as possible,
    the larger one on a tie, for the non-negative real [x = m * 2 ^ e]. *)
Definition tenths (m : positive) (e : Z) : Z :=
  if 0 <=? e then 10 * Zpos m * 2 ^ e
  else (20 * Zpos m + 2 ^ (- e)) / 2 ^ (1 - e).

(** Decimal digits of a non-negative integer. *)
Definition digits (n : Z) : string :=
  DecimalString.NilZero.string_of_uint (N.to_uint (Z.to_N n)).

(** Steps 10.c-10.d of [Number.prototype.toFixed] for one fraction digit:
    pad to two digits at least and put the point before the last one. *)
Definition point1 (m : string) : string :=
  let m := if (String.length m <=? 1)%nat then String.append "0" m else m in
  let k := String.length m in
  String.append (String.substring 0 (k - 1) m)
    (String.append "." (String.substring (k - 1) 1 m)).

(** [x.toFixed(1)]. A value of magnitude [1e21] or more is converted by
    [Number::toString]. *)
Definition toFixed1 (x : number) : text :=
  match Prim2SF x with
  | S754_nan => Str "NaN"
  | S754_infinity false => Str "Infinity"
  | S754_infinity true => Str "-Infinity"
  | S754_zero _ => Str "0.0"
  | S754_finite s m e =>
      if PrimFloat.leb 1e21 (PrimFloat.abs x) then Num x
      else
        let body := point1 (digits (tenths m e)) in
        Str (if s then String.append "-" body else body)
  end.

End ToFixed.

(** ** The text of the input field

    The text typed by the user is inspected character by character
    ([trim], [parseFloat]), so it is a sequence of UTF-16 code units.
    Catalog keys, names and units are only compared and copied: they stay
    plain strings. *)

Module JsString.

Definition t := list N.

(** The code units of an ASCII literal. *)
Definition lit (s : string) : t :=
  List.map N_of_ascii (list_ascii_of_string s).

(** [WhiteSpace] and [LineTerminator] code points. *)
Definition isWhiteSpace (c : N) : bool :=
  ((9 <=? c) && (c <=? 13) || (c =? 32) || (c =? 160) || (c =? 5760)
   || (8192 <=? c) && (c <=? 8202) || (c =? 8232) || (c =? 8233)
   || (c =? 8239) || (c =? 8287) || (c =? 12288) || (c =? 65279))%N.

Fixpoint trimStart (s : t) : t :=
  match s with
  | c :: rest => if isWhiteSpace c then trimStart rest else s
  | [] => []
  end.

Definition trimEnd (s : t) : t := rev (trimStart (rev s)).

(** [s.trim()]. *)
Definition trim (s : t) : t := trimEnd (trimStart s).

(** [ToBoolean] of a string: only the empty string is falsy. *)
Definition truthy (s : t) : bool :=
  match s with [] => false | _ => true end.

Definition digit (c : N) : option Z :=
  if ((48 <=? c) && (c <=? 57))%N then Some (Z.of_N c - 48) else None.

(** The longest run of decimal digits at the front, and what follows. *)
Fixpoint digits (s : t) : list Z * t :=
  match s with
  | c :: rest =>
      match digit c with
      | Some d => let '(ds, r) := digits rest in (d :: ds, r)
      | None => ([], s)
      end
  | [] => ([], [])
  end.

(** The mathematical value of a digit sequence. *)
Definition digits_value (ds : list Z) : Z :=
  fold_left (fun acc d => 10 * acc + d) ds 0.

Fixpoint startsWith (p s : t) : bool :=
  match p, s with
  | [], _ => true
  | a :: p', b :: s' => (a =? b)%N && startsWith p' s'
  | _ :: _, [] => false
  end.

(** An optional sign. *)
Definition sign (s : t) : bool * t :=
  match s with
  | 43%N :: rest => (false, rest)
  | 45%N :: rest => (true, rest)
  | _ => (false, s)
  end.

(** [ExponentPart]: an exponent indicator followed by a signed integer
    with one digit at least; otherwise there is no exponent part. *)
Definition exponent (s : t) : Z :=
  match s with
  | c :: rest =>
      if ((c =? 101) || (c =? 69))%N then
        let '(neg, r) := sign rest in
        match digits r with
        | ([], _) => 0
        | (ds, _) => if neg then - digits_value ds else digits_value ds
        end
      else 0
  | [] => 0
  end.

(** The binary64 value nearest to [(-1)^neg * m * 10 ^ e10]
    (ties to even), for [m > 0]. *)
Definition round_decimal (neg : bool) (m : positive) (e10 : Z) : number :=
  SF2Prim
    (if 0 <=? e10 then
       binary_normalize prec emax
         (cond_Zopp neg (Zpos m * 10 ^ e10)) 0 false
     else
       SFdiv prec emax (S754_finite neg m 0)
         (S754_finite false (Z.to_pos (10 ^ (- e10))) 0)).

(** The value of a [StrUnsignedDecimalLiteral] with integer digits [ip],
    fraction digits [fp] and exponent [ex], with its sign. *)
Definition decimal_value (neg : bool) (ip fp : list Z) (ex : Z) : number :=
  match digits_value (ip ++ fp) with
  | Zpos m => round_decimal neg m (ex - Z.of_nat (length fp))
  | _ => if neg then PrimFloat.neg_zero else PrimFloat.zero
  end.

(** [parseFloat(s)]: leading white space is skipped, the longest prefix
    that is a [StrDecimalLiteral] is converted, [NaN] when there is none. *)
Definition parseFloat (s : t) : number :=
  let '(neg, body) := sign (trimStart s) in
  if startsWith (lit "Infinity") body then
    if neg then PrimFloat.neg_infinity else PrimFloat.infinity
  else
    let '(ip, r1) := digits body in
    match r1 with
    | 46%N :: r2 =>
        let '(fp, r3) := digits r2 in
        match ip, fp with
        | [], [] => PrimFloat.nan
        | _, _ => decimal_value neg ip fp (exponent r3)
        end
    | _ =>
        match ip with
        | [] => PrimFloat.nan
        | _ => decimal_value neg ip [] (exponent r1)
        end
    end.

End JsString.

(** ** The metric store ([@/utils/metricsStorage])

    The screen imports [getMetrics], [addMetricEntry] and [getMetric] from
    a module whose code is not part of the sources at hand. The
    specification describes them as [loadAll], [appendEntry] and [loadOne];
    this module follows that description. *)

Module Storage.

Inductive StoreError :=
  | StorageReadError
  | StorageWriteError
  | ValidationError
  | InvalidValueError.

(** What the persistence medium holds: nothing yet, an unreadable
    document, or a serialized [MetricData]. *)
Inductive Medium :=
  | Missing
  | Corrupt
  | Doc (d : MetricData).

(** The store: the medium, the snapshot resident in memory (if any),
    whether the medium accepts a write, and the number of writes done. *)
Record Store := mkStore {
  medium : Medium;
  resident : option MetricData;
  writable : bool;
  writes : nat
}.

(** The capture moment of an entry: calendar date and clock time. *)
Record Moment := mkMoment {
  moment_date : string;
  moment_time : string
}.

Section Operations.

(** The formatted timestamp derived from the newest entry; the
    specification does not fix the format. *)
Variable formatLastUpdated : Entry -> string.

(** Modelled from the spec: [loadAll] of the store module, missing from
    the sources. Returns the resident snapshot, or reads the medium: an
    empty mapping on first use, [StorageReadError] on a corrupt medium. *)
Definition getMetrics (st : Store) : (StoreError + MetricData) * Store :=
  match resident st with
  | Some d => (inr d, st)
  | None =>
      match medium st with
      | Missing =>
          (inr ∅, mkStore (medium st) (Some ∅) (writable st) (writes st))
      | Corrupt => (inl StorageReadError, st)
      | Doc d =>
          (inr d, mkStore (medium st) (Some d) (writable st) (writes st))
      end
  end.

(** Modelled from the spec: [loadOne] of the store module, missing from
    the sources; it is [loadAll()[key]]. *)
Definition getMetric (k : string) (st : Store)
  : (StoreError + option Metric) * Store :=
  match getMetrics st with
  | (inr d, st') => (inr (d !! k), st')
  | (inl e, st') => (inl e, st')
  end.

(** Modelled from the spec: the derivation step of [appendEntry], missing
    from the sources: the new entry goes in front of the entries the key
    had ([prior] is absent on the first entry of the key), and
    [currentValue] and [lastUpdated] are recomputed from it. *)
Definition prepend (e : Entry) (prior : option Metric) : Metric :=
  let old := match prior with Some m => entries m | None => [] end in
  {| entries := e :: old;
     currentValue := Some (value e);
     lastUpdated := Some (formatLastUpdated e) |}.

(** Modelled from the spec: [appendEntry] of the store module, missing
    from the sources. The key must be in the catalog
    ([ValidationError]) and the value finite ([InvalidValueError]); the
    new entry copies the unit of the catalog, goes to the front of the
    entries of the key, and the whole updated snapshot is written back.
    On any failure the store is left as it was. *)
Definition addMetricEntry (now : Moment) (k : string) (v : number)
    (st : Store) : (StoreError + MetricData) * Store :=
  match findConfig k with
  | None => (inl ValidationError, st)
  | Some config =>
      if negb (Number.isFinite v) then (inl InvalidValueError, st)
      else
        match getMetrics st with
        | (inl e, _) => (inl e, st)
        | (inr d, _) =>
            let entry :=
              mkEntry v (cunit config) (moment_date now) (moment_time now) in
            let d' := <[k := prepend entry (d !! k)]> d in
            if writable st then
              (inr d',
               mkStore (Doc d') (Some d') (writable st) (S (writes st)))
            else (inl StorageWriteError, st)
        end
  end.

(** A sequence of [appendEntry] calls, each with its capture moment; a
    failed call leaves the store as it was and the next one proceeds. *)
Definition Call : Type := Moment * string * number.

Definition run (calls : list Call) (st : Store) : Store :=
  fold_left (fun st '(now, k, v) => snd (addMetricEntry now k v st)) calls st.

(** The entry a valid call creates. *)
Definition entry_of (c : Call) : option Entry :=
  let '(now, k, v) := c in
  match findConfig k with
  | Some config =>
      if Number.isFinite v
      then Some (mkEntry v (cunit config) (moment_date now) (moment_time now))
      else None
  | None => None
  end.

(** The entries a sequence of calls appends to key [k], oldest first. *)
Definition appended (k : string) (calls : list Call) : list Entry :=
  omap (fun c => if String.eqb (snd (fst c)) k then entry_of c else None) calls.

End Operations.

(** The snapshot a store would serve, when it can serve one. *)
Definition snapshot (st : Store) : option MetricData :=
  match resident st with
  | Some d => Some d
  | None =>
      match medium st with
      | Missing => Some ∅
      | Corrupt => None
      | Doc d => Some d
      end
  end.

(** The entries recorded for a key in a snapshot; none for an absent key. *)
Definition entries_of (k : string) (d : MetricData) : list Entry :=
  match d !! k with Some m => entries m | None => [] end.

(** The invariant of a recorded metric: the current value is the value of
    the head entry. *)
Definition current_is_head (m : Metric) : Prop :=
  currentValue m = value <$> head (entries m).

End Storage.

(** ** The screen *)

(** What a handler does to the outside world, in order. *)
Inductive Event :=
  | Alert (title message : string)
  | ConsoleError (message : string)
  | CallGetMetrics
  | CallAddMetricEntry (k : string) (v : number).

(** The React state of [ClientMetricsScreen]. *)
Record ScreenState := mkScreen {
  metrics : MetricData;
  selectedMetric : option string;
  showAddModal : bool;
  newValue : JsString.t;
  loading : bool
}.

(** [ToBoolean] of [selectedMetric : string | null]. *)
Definition isSelected (s : option string) : bool :=
  match s with
  | Some k => negb (String.eqb k EmptyString)
  | None => false
  end.

(** [metric?.currentValue || '--']. *)
Definition currentValueOrDashes (metric : option Metric) : text :=
  match metric with
  | Some m =>
      match currentValue m with
      | Some v => if Number.truthy v then Num v else Str "--"
      | None => Str "--"
      end
  | None => Str "--"
  end.

(** The dynamic parts of a metric card. *)
Record MetricCard := mkCard {
  card_key : string;
  card_selected : bool;
  card_value : text;
  card_change : option (bool * text);
  card_lastUpdated : option string
}.

(** [renderMetricCard]. *)
Definition renderMetricCard (s : ScreenState) (config : MetricConfig)
  : MetricCard :=
  let metric := metrics s !! key config in
  let change := match metric with Some m => getMetricChange m | None => None end in
  {| card_key := key config;
     card_selected :=
       match selectedMetric s with
       | Some k => String.eqb k (key config)
       | None => false
       end;
     card_value := currentValueOrDashes metric;
     card_change :=
       match change with
       | Some c => Some (isPositive c, ToFixed.toFixed1 (change_value c))
       | None => None
       end;
     card_lastUpdated :=
       match metric with
       | Some m =>
           match lastUpdated m with
           | Some u => if String.eqb u EmptyString then None else Some u
           | None => None
           end
       | None => None
       end |}.

(** The value shown by the hint of the add-entry modal:
    [metrics[selectedMetric]?.currentValue || '--']. *)
Definition inputHintValue (s : ScreenState) : option text :=
  if isSelected (selectedMetric s) then
    match selectedMetric s with
    | Some k => Some (currentValueOrDashes (metrics s !! k))
    | None => None
    end
  else None.

(** The statistics card of the detail view. *)
Record Statistics := mkStatistics {
  totalEntries : nat;
  highest : text;
  lowest : text;
  average : text
}.

(** [metric.entries.reduce((sum, e) => sum + e.value, 0)]. *)
Definition sumValues (es : list Entry) : number :=
  fold_left (fun sum e => PrimFloat.add sum (value e)) es PrimFloat.zero.

(** The unrounded mean the [Average] cell formats. *)
Definition meanValue (es : list Entry) : number :=
  PrimFloat.div (sumValues es) (Number.of_nat (length es)).

(** The statistics block of [renderMetricDetail]. *)
Definition statistics (metric : Metric) : Statistics :=
  let es := entries metric in
  {| totalEntries := length es;
     highest :=
       if (0 <? length es)%nat
       then ToFixed.toFixed1 (Math.max (List.map value es))
       else Str "--";
     lowest :=
       if (0 <? length es)%nat
       then ToFixed.toFixed1 (Math.min (List.map value es))
       else Str "--";
     average :=
       if (0 <? length es)%nat
       then ToFixed.toFixed1 (meanValue es)
       else Str "--" |}.

(** The dynamic parts of the detail view. *)
Record MetricDetail := mkDetail {
  detail_title : string;
  detail_current : option number * string;
  detail_chart : option (list (string * number));
  detail_statistics : Statistics;
  detail_history : list (string * string * (number * string))
}.

(** [renderMetricDetail]; [None] is the [null] result. *)
Definition renderMetricDetail (s : ScreenState) : option MetricDetail :=
  if negb (isSelected (selectedMetric s)) then None
  else
    match selectedMetric s with
    | None => None
    | Some k =>
        match findConfig k, metrics s !! k with
        | Some config, Some metric =>
            let chartData :=
              List.map (fun e => (date e, value e))
                (rev (firstn 10 (entries metric))) in
            Some
              {| detail_title := name config;
                 detail_current := (currentValue metric, cunit config);
                 detail_chart :=
                   if (1 <? length chartData)%nat then Some chartData else None;
                 detail_statistics := statistics metric;
                 detail_history :=
                   List.map (fun e => (date e, time e, (value e, unit e)))
                     (firstn 10 (entries metric)) |}
        | _, _ => None
        end
    end.

(** [Object.values(metrics)]; the counters below do not depend on the
    order of the values. *)
Definition Object_values (m : MetricData) : list Metric :=
  (map_to_list m).*2.

(** The [Active Metrics] counter. *)
Definition activeMetrics (m : MetricData) : nat :=
  length (List.filter (fun m => (0 <? length (entries m))%nat) (Object_values m)).

(** The [Total Entries] counter. *)
Definition overviewTotalEntries (m : MetricData) : nat :=
  fold_left (fun total m => (total + length (entries m))%nat) (Object_values m) 0%nat.

(** The predicate of the [Improving] counter. As in [getMetricChange], the
    index reads are guarded by the length test. *)
Definition isImproving (m : Metric) : bool :=
  if (length (entries m) <? 2)%nat then false
  else
    match entries m !! 0%nat, entries m !! 1%nat with
    | Some e0, Some e1 => Number.gt (value e0) (value e1)
    | _, _ => false
    end.

(** The [Improving] counter. *)
Definition improvingCount (m : MetricData) : nat :=
  length (List.filter isImproving (Object_values m)).

Section Handlers.

(** The store as the screen sees it: a world that [getMetrics] and
    [addMetricEntry] read and change, and an error they may throw. *)
Variable World : Type.
Variable Thrown : Type.
Variable getMetrics : World -> (Thrown + MetricData) * World.
Variable addMetricEntry : string -> number -> World -> option Thrown * World.

Definition Outcome : Type := ScreenState * World * list Event.

(** [loadMetrics]. *)
Definition loadMetrics (s : ScreenState) (w : World) : Outcome :=
  match getMetrics w with
  | (inr metricsData, w') =>
      (mkScreen metricsData (selectedMetric s) (showAddModal s) (newValue s)
         false,
       w', [CallGetMetrics])
  | (inl _, w') =>
      (mkScreen (metrics s) (selectedMetric s) (showAddModal s) (newValue s)
         false,
       w',
       [CallGetMetrics; ConsoleError "Error loading metrics:";
        Alert "Error" "Failed to load metrics data"])
  end.

(** [handleSaveEntry]. *)
Definition handleSaveEntry (s : ScreenState) (w : World) : Outcome :=
  if negb (isSelected (selectedMetric s))
     || negb (JsString.truthy (JsString.trim (newValue s)))
  then (s, w, [Alert "Error" "Please enter a valid value"])
  else
    let value := JsString.parseFloat (newValue s) in
    if Number.isNaN value
    then (s, w, [Alert "Error" "Please enter a valid number"])
    else
      let k := default EmptyString (selectedMetric s) in
      match addMetricEntry k value w with
      | (None, w1) =>
          let '(s2, w2, log) := loadMetrics s w1 in
          (mkScreen (metrics s2) (selectedMetric s2) false [] (loading s2),
           w2,
           CallAddMetricEntry k value :: log
             ++ [Alert "Success" "Metric entry added successfully"])
      | (Some _, w1) =>
          (s, w1,
           [CallAddMetricEntry k value;
            ConsoleError "Error adding metric entry:";
            Alert "Error" "Failed to add metric entry"])
      end.

(** The calls of [addMetricEntry] among the events of an outcome. *)
Definition forwarded (o : Outcome) : list (string * number) :=
  omap (fun ev => match ev with
                  | CallAddMetricEntry k v => Some (k, v)
                  | _ => None
                  end) (snd o).

End Handlers.

(** ** The other handlers of the screen *)

(** The state [useState] gives the screen when it mounts. *)
Definition initialScreen : ScreenState :=
  mkScreen ∅ None false [] true.

(** [handleMetricPress]. *)
Definition handleMetricPress (metricKey : string) (s : ScreenState)
  : ScreenState :=
  mkScreen (metrics s) (Some metricKey) (showAddModal s) (newValue s)
    (loading s).

(** [handleAddEntry]. *)
Definition handleAddEntry (s : ScreenState) : ScreenState :=
  if negb (isSelected (selectedMetric s)) then s
  else mkScreen (metrics s) (selectedMetric s) true (newValue s) (loading s).

(** The back button of the detail view: [setSelectedMetric(null)]. *)
Definition handleBack (s : ScreenState) : ScreenState :=
  mkScreen (metrics s) None (showAddModal s) (newValue s) (loading s).

(** The close button of the modal and [onRequestClose]:
    [setShowAddModal(false)]. *)
Definition handleCloseModal (s : ScreenState) : ScreenState :=
  mkScreen (metrics s) (selectedMetric s) false (newValue s) (loading s).

(** [onChangeText={setNewValue}]. *)
Definition handleChangeText (text : JsString.t) (s : ScreenState)
  : ScreenState :=
  mkScreen (metrics s) (selectedMetric s) (showAddModal s) text (loading s).

(** Nothing is selected, or a key of the catalog is. *)
Definition selectionInCatalog (s : ScreenState) : Prop :=
  match selectedMetric s with
  | Some k => In k (List.map key metricConfigs)
  | None => True
  end.

(** ** What the screen renders, and when

    The component returns the loading view while [loading] is set
    (nothing can be pressed then, and the modal is not part of it).
    Otherwise it renders the detail view when [selectedMetric] is truthy
    and the overview with the grid of cards when it is not, and the modal
    on top when [showAddModal] is set. The functions below take the
    catalog as it is when they run: [metricConfigs] is a module-level
    array that every render reads again. *)

(** The main view is rendered: [loading] is false. *)
Definition interactive (s : ScreenState) : bool := negb (loading s).

(** The overview with the grid is rendered. *)
Definition gridShown (s : ScreenState) : bool :=
  interactive s && negb (isSelected (selectedMetric s)).

(** [metricConfigs.find(c => c.key === k)] on the catalog as it is. *)
Definition findIn (catalog : list MetricConfig) (k : string)
  : option MetricConfig :=
  List.find (fun c => String.eqb (key c) k) catalog.

(** The detail view is rendered with its back and add buttons:
    [renderMetricDetail] is called and does not return [null]. *)
Definition detailShown (catalog : list MetricConfig) (s : ScreenState) : bool :=
  interactive s && isSelected (selectedMetric s)
  && match selectedMetric s with
     | Some k =>
         match findIn catalog k, metrics s !! k with
         | Some _, Some _ => true
         | _, _ => false
         end
     | None => false
     end.

(** The modal is rendered and visible, with its close and save buttons. *)
Definition modalShown (s : ScreenState) : bool :=
  interactive s && showAddModal s.

(** The text input of the modal is rendered: [selectedMetric && (...)]. *)
Definition inputShown (s : ScreenState) : bool :=
  modalShown s && isSelected (selectedMetric s).

(** [metricConfigs.map(renderMetricCard)]: the grid of cards, [None] when
    the overview is not rendered. *)
Definition metricsGrid (catalog : list MetricConfig) (s : ScreenState)
  : option (list MetricCard) :=
  if gridShown s then Some (List.map (renderMetricCard s) catalog) else None.

(** ** The screen as a machine

    [loadMetrics] and [handleSaveEntry] are asynchronous: each stops at its
    [await] and goes on when the promise settles, and the user can act in
    between (the save button stays enabled). The machine keeps the
    continuations that wait; the store operation behind a promise takes
    effect when the promise settles. *)

(** A continuation waiting on a promise. *)
Inductive Task :=
  | AwaitLoad
  | AwaitAdd (k : string) (v : number)
  | AwaitReload.

(** What can happen next: a promise settles, or the user presses
    something that is rendered. A card is pressed by its position in the
    grid. Leaving the screen ([router.back()]) ends the run and is not an
    action. *)
Inductive Action :=
  | Resume (i : nat)
  | PressCard (i : nat)
  | PressBack
  | PressAdd
  | ChangeText (text : JsString.t)
  | PressSave
  | CloseModal.

(** What [loadMetrics] does once [getMetrics] has settled: [setMetrics] on
    success, the error report on failure, [setLoading(false)] in both. *)
Definition finishLoad {Thrown : Type} (s : ScreenState)
    (r : Thrown + MetricData) : ScreenState * list Event :=
  match r with
  | inr metricsData =>
      (mkScreen metricsData (selectedMetric s) (showAddModal s) (newValue s)
         false, [])
  | inl _ =>
      (mkScreen (metrics s) (selectedMetric s) (showAddModal s) (newValue s)
         false,
       [ConsoleError "Error loading metrics:";
        Alert "Error" "Failed to load metrics data"])
  end.

Section Machine.

Variable World : Type.
Variable Thrown : Type.
Variable getMetrics : World -> (Thrown + MetricData) * World.
Variable addMetricEntry : string -> number -> World -> option Thrown * World.

(** The React state, the store, the catalog array, the continuations that
    wait, and the events so far. *)
Record Machine := mkMachine {
  screen : ScreenState;
  world : World;
  catalog : list MetricConfig;
  pending : list Task;
  log : list Event
}.

(** The screen once mounted: the effect has called [loadMetrics], which
    waits for [getMetrics]. *)
Definition mounted (w : World) : Machine :=
  mkMachine initialScreen w metricConfigs [AwaitLoad] [CallGetMetrics].

(** Evaluating [metricConfigs]: the value read and the machine after the
    read. *)
Definition listConfigs (m : Machine) : list MetricConfig * Machine :=
  (catalog m, m).

Definition withScreen (s : ScreenState) (m : Machine) : Machine :=
  mkMachine s (world m) (catalog m) (pending m) (log m).

(** [handleSaveEntry] up to its first [await]: the guards, then the call
    of [addMetricEntry]. *)
Definition pressSave (m : Machine) : Machine :=
  let s := screen m in
  if negb (isSelected (selectedMetric s))
     || negb (JsString.truthy (JsString.trim (newValue s)))
  then
    mkMachine s (world m) (catalog m) (pending m)
      (log m ++ [Alert "Error" "Please enter a valid value"])
  else
    let value := JsString.parseFloat (newValue s) in
    if Number.isNaN value
    then
      mkMachine s (world m) (catalog m) (pending m)
        (log m ++ [Alert "Error" "Please enter a valid number"])
    else
      let k := default EmptyString (selectedMetric s) in
      mkMachine s (world m) (catalog m) (pending m ++ [AwaitAdd k value])
        (log m ++ [CallAddMetricEntry k value]).

(** A continuation goes on, its promise having settled. *)
Definition resume (t : Task) (m : Machine) : Machine :=
  match t with
  | AwaitLoad =>
      let '(r, w') := getMetrics (world m) in
      let '(s', events) := finishLoad (screen m) r in
      mkMachine s' w' (catalog m) (pending m) (log m ++ events)
  | AwaitAdd k v =>
      match addMetricEntry k v (world m) with
      | (None, w1) =>
          mkMachine (screen m) w1 (catalog m) (pending m ++ [AwaitReload])
            (log m ++ [CallGetMetrics])
      | (Some _, w1) =>
          mkMachine (screen m) w1 (catalog m) (pending m)
            (log m ++ [ConsoleError "Error adding metric entry:";
                       Alert "Error" "Failed to add metric entry"])
      end
  | AwaitReload =>
      let '(r, w') := getMetrics (world m) in
      let '(s2, events) := finishLoad (screen m) r in
      mkMachine
        (mkScreen (metrics s2) (selectedMetric s2) false [] (loading s2))
        w' (catalog m) (pending m)
        (log m ++ events ++ [Alert "Success" "Metric entry added successfully"])
  end.

(** One action; [None] when nothing rendered answers to it. *)
Definition step (a : Action) (m : Machine) : option Machine :=
  let s := screen m in
  match a with
  | Resume i =>
      match pending m !! i with
      | Some t =>
          Some (resume t
                  (mkMachine s (world m) (catalog m) (delete i (pending m))
                     (log m)))
      | None => None
      end
  | PressCard i =>
      if gridShown s then
        match catalog m !! i with
        | Some config => Some (withScreen (handleMetricPress (key config) s) m)
        | None => None
        end
      else None
  | PressBack =>
      if detailShown (catalog m) s then Some (withScreen (handleBack s) m)
      else None
  | PressAdd =>
      if detailShown (catalog m) s then Some (withScreen (handleAddEntry s) m)
      else None
  | ChangeText text =>
      if inputShown s then Some (withScreen (handleChangeText text s) m)
      else None
  | PressSave => if modalShown s then Some (pressSave m) else None
  | CloseModal =>
      if modalShown s then Some (withScreen (handleCloseModal s) m) else None
  end.

(** A sequence of actions; [None] as soon as one of them is not possible. *)
Fixpoint run (actions : list Action) (m : Machine) : option Machine :=
  match actions with
  | [] => Some m
  | a :: rest =>
      match step a m with
      | Some m' => run rest m'
      | None => None
      end
  end.

(** The calls of [addMetricEntry] in the events of a machine and in its
    waiting continuations carry keys of the catalog and no [NaN]. *)
Definition callsInCatalog (m : Machine) : Prop :=
  (forall k v, In (CallAddMetricEntry k v) (log m) ->
     In k (List.map key metricConfigs) /\ Number.isNaN v = false)
  /\ (forall k v, In (AwaitAdd k v) (pending m) ->
        In k (List.map key metricConfigs) /\ Number.isNaN v = false).

(** What holds of the machine in every run: the catalog is the one the
    module defined, the selection is empty or one of its keys, the calls
    are on its keys, and the loading view is shown only before the first
    load has settled. *)
Definition wellFormed (w : World) (m : Machine) : Prop :=
  catalog m = metricConfigs
  /\ selectionInCatalog (screen m)
  /\ callsInCatalog m
  /\ (loading (screen m) = true -> m = mounted w).

End Machine.

Arguments mkMachine {World}.
Arguments screen {World}.
Arguments world {World}.
Arguments catalog {World}.
Arguments pending {World}.
Arguments log {World}.
Arguments mounted {World}.
Arguments listConfigs {World}.
Arguments withScreen {World}.
Arguments pressSave {World}.
Arguments callsInCatalog {World}.
Arguments wellFormed {World}.
Arguments resume {World Thrown}.
Arguments step {World Thrown}.
Arguments run {World Thrown}.

(** The contribution of one metric to the three overview counters. *)
Definition activeShare (m : Metric) : nat :=
  if (0 <? length (entries m))%nat then 1%nat else 0%nat.

Definition improvingShare (m : Metric) : nat :=
  if isImproving m then 1%nat else 0%nat.

(** ** Sample data *)

Module Sample.

Definition entry (v : number) : Entry :=
  mkEntry v "kg" "1/5/2025" "8:30:00 AM".

(** A weight metric holding the given values, newest first. *)
Definition metric (vs : list number) : Metric :=
  mkMetric (List.map entry vs) (head vs) (Some "1/5/2025 8:30:00 AM").

Definition tie : Metric := metric [5; 5]%float.

Definition three : Metric := metric [70; 72.5; 68]%float.

(** Twelve entries: the extremes lie beyond the ten newest. *)
Definition twelve : Metric :=
  metric [10; 11; 12; 13; 14; 15; 16; 17; 18; 19; 90; 2]%float.

Definition now : Storage.Moment := Storage.mkMoment "1/5/2025" "8:30:00 AM".

Definition later : Storage.Moment := Storage.mkMoment "1/6/2025" "9:00:00 AM".

(** One way to format the timestamp of an entry. *)
Definition format (e : Entry) : string :=
  String.append (date e) (String.append " " (time e)).

(** A store on first use: nothing persisted, nothing resident. *)
Definition fresh : Storage.Store := Storage.mkStore Storage.Missing None true 0.

(** A store that holds three weights. *)
Definition stocked : Storage.Store :=
  Storage.mkStore (Storage.Doc {[ "weight"%string := three ]}) None true 0.

(** The store operations as the screen calls them. *)
Definition getMetrics (st : Storage.Store) := Storage.getMetrics st.

Definition addMetricEntry (k : string) (v : number) (st : Storage.Store)
  : option Storage.StoreError * Storage.Store :=
  match Storage.addMetricEntry format now k v st with
  | (inl e, st') => (Some e, st')
  | (inr _, st') => (None, st')
  end.

(** Three calls: two on the weight, one on the chest in between. *)
Definition calls : list Storage.Call :=
  [(now, "weight"%string, 70%float); (now, "chest"%string, 30%float);
   (later, "weight"%string, 71.5%float)].

(** The screen with the weight metric selected and [text] typed in. *)
Definition typing (text : string) : ScreenState :=
  mkScreen ∅ (Some "weight"%string) true (JsString.lit text) false.

End Sample.

(** * Properties *)

(** ** Order facts on binary64 values *)

Section SpecOrder.

Local Ltac cmp_cases :=
  repeat match goal with
    | |- context [Z.compare ?a ?b] => destruct (Z.compare_spec a b)
    | H : context [Z.compare ?a ?b] |- _ => destruct (Z.compare_spec a b)
    | |- context [Pos.compare_cont Eq ?a ?b] =>
        change (Pos.compare_cont Eq a b) with (Pos.compare a b);
        destruct (Pos.compare_spec a b)
    | H : context [Pos.compare_cont Eq ?a ?b] |- _ =>
        change (Pos.compare_cont Eq a b) with (Pos.compare a b) in H;
        destruct (Pos.compare_spec a b)
    end.

Lemma SFcompare_antisym x y :
  SFcompare y x = CompOpp <$> SFcompare x y.
Proof.
  destruct x as [[]|[]| |[] m1 e1], y as [[]|[]| |[] m2 e2];
    try reflexivity; simpl;
    rewrite (Z.compare_antisym e1 e2);
    change (Pos.compare_cont Eq m2 m1) with (Pos.compare m2 m1);
    change (Pos.compare_cont Eq m1 m2) with (Pos.compare m1 m2);
    rewrite (Pos.compare_antisym m1 m2);
    destruct (e1 ?= e2); simpl; try reflexivity;
    destruct (m1 ?= m2)%positive; reflexivity.
Qed.

Lemma SFcompare_None x y :
  SFcompare x y = None -> x = S754_nan \/ y = S754_nan.
Proof.
  destruct x as [[]|[]| |[] m1 e1], y as [[]|[]| |[] m2 e2];
    simpl; intros H; try discriminate H; auto.
Qed.

Lemma SFleb_trans x y z :
  SFleb x y = true -> SFleb y z = true -> SFleb x z = true.
Proof.
  unfold SFleb.
  destruct x as [[]|[]| |[] m1 e1], y as [[]|[]| |[] m2 e2],
           z as [[]|[]| |[] m3 e3];
    simpl; intros H1 H2; try discriminate; try reflexivity;
    cmp_cases; subst; try discriminate; try reflexivity;
    simpl in *; try discriminate; try lia.
Qed.

Lemma SFcompare_Eq_finite s1 m1 e1 s2 m2 e2 :
  SFcompare (S754_finite s1 m1 e1) (S754_finite s2 m2 e2) = Some Eq ->
  s1 = s2 /\ m1 = m2 /\ e1 = e2.
Proof.
  destruct s1, s2; simpl; intros H; try discriminate H;
    cmp_cases; subst; simpl in H; try discriminate H; auto.
Qed.

End SpecOrder.

Section NumberFacts.

Local Open Scope float_scope.

Lemma SFcompare_refl p : p <> S754_nan -> SFcompare p p = Some Eq.
Proof.
  destruct p as [[]|[]| |[] m e]; simpl; intros H; try reflexivity;
    try (now destruct H);
    rewrite Z.compare_refl;
    change (Pos.compare_cont Eq m m) with (Pos.compare m m);
    now rewrite Pos.compare_refl.
Qed.

Lemma isNaN_false x : Number.isNaN x = false <-> Prim2SF x <> S754_nan.
Proof.
  unfold Number.isNaN, is_nan. rewrite FloatAxioms.eqb_spec. unfold SFeqb. split.
  - intros H E. rewrite E in H. discriminate H.
  - intros H. now rewrite (SFcompare_refl _ H).
Qed.

Lemma leb_refl x : Number.isNaN x = false -> (x <=? x) = true.
Proof.
  rewrite isNaN_false, FloatAxioms.leb_spec. intros H. unfold SFleb.
  now rewrite (SFcompare_refl _ H).
Qed.

Lemma leb_trans x y z :
  (x <=? y) = true -> (y <=? z) = true -> (x <=? z) = true.
Proof. rewrite !FloatAxioms.leb_spec. apply SFleb_trans. Qed.

Lemma ltb_leb x y : (x <? y) = true -> (x <=? y) = true.
Proof.
  rewrite FloatAxioms.ltb_spec, FloatAxioms.leb_spec. unfold SFltb, SFleb.
  now destruct (SFcompare (Prim2SF x) (Prim2SF y)) as [[]|].
Qed.

Lemma not_ltb_leb x y :
  Number.isNaN x = false -> Number.isNaN y = false ->
  (x <? y) = false -> (y <=? x) = true.
Proof.
  rewrite !isNaN_false, FloatAxioms.ltb_spec, FloatAxioms.leb_spec. unfold SFltb, SFleb.
  intros Hx Hy. rewrite (SFcompare_antisym (Prim2SF x) (Prim2SF y)).
  destruct (SFcompare (Prim2SF x) (Prim2SF y)) as [[]|] eqn:E;
    simpl; try easy.
  destruct (SFcompare_None _ _ E); contradiction.
Qed.

Lemma eqb_not_gt a b : (a =? b) = true -> Number.gt a b = false.
Proof.
  unfold Number.gt. rewrite FloatAxioms.eqb_spec, FloatAxioms.ltb_spec. unfold SFeqb, SFltb.
  rewrite (SFcompare_antisym (Prim2SF a) (Prim2SF b)).
  now destruct (SFcompare (Prim2SF a) (Prim2SF b)) as [[]|].
Qed.

Lemma eqb_zero_ge d : (d =? zero) = true -> Number.ge d zero = true.
Proof.
  unfold Number.ge. rewrite FloatAxioms.eqb_spec, FloatAxioms.leb_spec. unfold SFeqb, SFleb.
  rewrite (SFcompare_antisym (Prim2SF d) (Prim2SF zero)).
  now destruct (SFcompare (Prim2SF d) (Prim2SF zero)) as [[]|].
Qed.

Lemma is_pzero_eq x : Math.is_pzero x = true -> x = zero.
Proof.
  unfold Math.is_pzero. rewrite FloatAxioms.classify_spec. intros H.
  apply Prim2SF_inj. change (Prim2SF zero) with (S754_zero false).
  unfold SF64classify, SFclassify in H.
  destruct (Prim2SF x) as [[]|[]| |[] m e]; try discriminate H; try reflexivity;
    destruct (Z.eqb _ _); discriminate H.
Qed.

Lemma is_nzero_eq x : Math.is_nzero x = true -> x = neg_zero.
Proof.
  unfold Math.is_nzero. rewrite FloatAxioms.classify_spec. intros H.
  apply Prim2SF_inj. change (Prim2SF neg_zero) with (S754_zero true).
  unfold SF64classify, SFclassify in H.
  destruct (Prim2SF x) as [[]|[]| |[] m e]; try discriminate H; try reflexivity;
    destruct (Z.eqb _ _); discriminate H.
Qed.

Lemma neg_infinity_least x :
  Number.isNaN x = false -> (neg_infinity <=? x) = true.
Proof.
  rewrite isNaN_false, FloatAxioms.leb_spec.
  change (Prim2SF neg_infinity) with (S754_infinity true).
  now destruct (Prim2SF x) as [[]|[]| |[] m e].
Qed.

Lemma infinity_greatest x :
  Number.isNaN x = false -> (x <=? infinity) = true.
Proof.
  rewrite isNaN_false, FloatAxioms.leb_spec.
  change (Prim2SF infinity) with (S754_infinity false).
  now destruct (Prim2SF x) as [[]|[]| |[] m e].
Qed.

Lemma below_neg_infinity x : (x <=? neg_infinity) = true -> x = neg_infinity.
Proof.
  rewrite FloatAxioms.leb_spec. intros H. apply Prim2SF_inj.
  change (Prim2SF neg_infinity) with (S754_infinity true) in *.
  now destruct (Prim2SF x) as [[]|[]| |[] m e].
Qed.

Lemma above_infinity x : (infinity <=? x) = true -> x = infinity.
Proof.
  rewrite FloatAxioms.leb_spec. intros H. apply Prim2SF_inj.
  change (Prim2SF infinity) with (S754_infinity false) in *.
  now destruct (Prim2SF x) as [[]|[]| |[] m e].
Qed.

(** The difference of two equal finite values is a zero. *)
Lemma sub_tie a b :
  (a =? b) = true -> Number.isFinite a = true -> (a - b =? zero) = true.
Proof.
  unfold Number.isFinite, is_finite, is_infinity, Number.isNaN, is_nan.
  rewrite !FloatAxioms.eqb_spec, FloatAxioms.abs_spec, FloatAxioms.sub_spec.
  change (Prim2SF infinity) with (S754_infinity false).
  change (Prim2SF zero) with (S754_zero false).
  unfold SFeqb at 1. unfold SF64sub.
  destruct (SFcompare (Prim2SF a) (Prim2SF b)) as [[]|] eqn:E;
    try discriminate.
  intros _.
  destruct (Prim2SF a) as [sa|sa| |sa ma ea], (Prim2SF b) as [sb|sb| |sb mb eb];
    try (apply SFcompare_Eq_finite in E as (-> & -> & ->));
    try (simpl in E; try destruct sa; try destruct sb; discriminate E);
    try (destruct sa, sb; simpl; (reflexivity || discriminate)).
  intros _. simpl.
  rewrite Z.min_id. unfold shl_align. rewrite Z.sub_diag. simpl.
  reflexivity.
Qed.

End NumberFacts.

(** ** Trend *)

(** A difference equal to zero is classified positive. *)
Lemma tie_is_positive metric e0 e1 rest :
  entries metric = e0 :: e1 :: rest ->
  PrimFloat.eqb (PrimFloat.sub (value e0) (value e1)) PrimFloat.zero = true ->
  isPositive <$> getMetricChange metric = Some true.
Proof.
  intros E Hz. unfold getMetricChange. rewrite E. simpl.
  f_equal. now apply eqb_zero_ge.
Qed.

(** C2: the trend of a metric is absent when it has fewer than two entries;
    otherwise its magnitude is the absolute value of
    [entries[0].value - entries[1].value] and it is positive exactly when
    that difference is [>= 0], so that a difference equal to zero is
    classified positive. *)
Theorem getMetricChange_trend (metric : Metric) :
  ((length (entries metric) < 2)%nat -> getMetricChange metric = None) /\
  (forall e0 e1 rest, entries metric = e0 :: e1 :: rest ->
     let delta := PrimFloat.sub (value e0) (value e1) in
     getMetricChange metric =
       Some {| change_value := PrimFloat.abs delta;
               isPositive := Number.ge delta PrimFloat.zero |}
     /\ (PrimFloat.eqb delta PrimFloat.zero = true ->
         isPositive <$> getMetricChange metric = Some true)).
Proof.
  split.
  - intros H. unfold getMetricChange. apply Nat.ltb_lt in H. now rewrite H.
  - intros e0 e1 rest E. split.
    + unfold getMetricChange. rewrite E. reflexivity.
    + intros Hz. now apply (tie_is_positive metric e0 e1 rest).
Qed.

(** The examples of the specification: [10, 8], [8, 10] and an empty
    metric. *)
Example getMetricChange_examples :
  getMetricChange (Sample.metric [10; 8]%float) =
    Some {| change_value := 2%float; isPositive := true |}
  /\ getMetricChange (Sample.metric [8; 10]%float) =
    Some {| change_value := 2%float; isPositive := false |}
  /\ getMetricChange (Sample.metric []) = None.
Proof. repeat split. Qed.

Lemma getMetricChange_trend_witness :
  getMetricChange Sample.tie =
    Some {| change_value := 0%float; isPositive := true |}
  /\ isPositive <$> getMetricChange Sample.tie = Some true
  /\ getMetricChange (Sample.metric [5%float]) = None.
Proof.
  destruct (getMetricChange_trend Sample.tie) as [_ H].
  destruct (H _ _ _ eq_refl) as [H1 H2].
  split; [exact H1|]. split; [exact (H2 eq_refl)|].
  apply (getMetricChange_trend (Sample.metric [5%float])). simpl. lia.
Defined.

(** ** Statistics *)

Section Extremes.

Local Open Scope float_scope.

Lemma max_loop_spec l : forall h,
  Forall notNaN l -> notNaN h ->
  (Math.max_loop h l = h \/ In (Math.max_loop h l) l)
  /\ (h <=? Math.max_loop h l) = true
  /\ Forall (fun v => (v <=? Math.max_loop h l) = true) l.
Proof.
  induction l as [|x rest IH]; intros h Hl Hh; simpl.
  - repeat split; auto using leb_refl.
  - inversion Hl as [|? ? Hx Hrest]; subst. unfold notNaN in Hx. rewrite Hx.
    set (h1 := if Math.is_pzero x && Math.is_nzero h then zero else h).
    set (h2 := if Number.gt x h1 then x else h1).
    assert (H1 : notNaN h1 /\ (h <=? h1) = true /\ (h1 = h \/ h1 = x)).
    { subst h1. destruct (Math.is_pzero x) eqn:Ep; simpl;
        [destruct (Math.is_nzero h) eqn:En|]; auto using leb_refl.
      apply is_pzero_eq in Ep. apply is_nzero_eq in En. subst.
      repeat split; auto. }
    destruct H1 as (N1 & L1 & M1).
    assert (H2 : notNaN h2 /\ (h1 <=? h2) = true /\ (x <=? h2) = true
                 /\ (h2 = h1 \/ h2 = x)).
    { subst h2. unfold Number.gt. destruct (h1 <? x) eqn:Eg.
      - repeat split; auto using leb_refl, ltb_leb.
      - repeat split; auto using leb_refl, not_ltb_leb. }
    destruct H2 as (N2 & L2 & X2 & M2).
    destruct (IH h2 Hrest N2) as (M & L & F).
    split; [|split].
    + destruct M as [M|M]; [|auto]. rewrite M.
      destruct M2 as [->| ->]; [|auto]. destruct M1 as [->| ->]; auto.
    + eauto using leb_trans.
    + constructor; [eauto using leb_trans | exact F].
Qed.

Lemma min_loop_spec l : forall h,
  Forall notNaN l -> notNaN h ->
  (Math.min_loop h l = h \/ In (Math.min_loop h l) l)
  /\ (Math.min_loop h l <=? h) = true
  /\ Forall (fun v => (Math.min_loop h l <=? v) = true) l.
Proof.
  induction l as [|x rest IH]; intros h Hl Hh; simpl.
  - repeat split; auto using leb_refl.
  - inversion Hl as [|? ? Hx Hrest]; subst. unfold notNaN in Hx. rewrite Hx.
    set (h1 := if Math.is_nzero x && Math.is_pzero h then neg_zero else h).
    set (h2 := if x <? h1 then x else h1).
    assert (H1 : notNaN h1 /\ (h1 <=? h) = true /\ (h1 = h \/ h1 = x)).
    { subst h1. destruct (Math.is_nzero x) eqn:En; simpl;
        [destruct (Math.is_pzero h) eqn:Ep|]; auto using leb_refl.
      apply is_pzero_eq in Ep. apply is_nzero_eq in En. subst.
      repeat split; auto. }
    destruct H1 as (N1 & L1 & M1).
    assert (H2 : notNaN h2 /\ (h2 <=? h1) = true /\ (h2 <=? x) = true
                 /\ (h2 = h1 \/ h2 = x)).
    { subst h2. destruct (x <? h1) eqn:Eg.
      - repeat split; auto using leb_refl, ltb_leb.
      - repeat split; auto using leb_refl, not_ltb_leb. }
    destruct H2 as (N2 & L2 & X2 & M2).
    destruct (IH h2 Hrest N2) as (M & L & F).
    split; [|split].
    + destruct M as [M|M]; [|auto]. rewrite M.
      destruct M2 as [->| ->]; [|auto]. destruct M1 as [->| ->]; auto.
    + eauto using leb_trans.
    + constructor; [eauto using leb_trans | exact F].
Qed.

(** [Math.max] of a non-empty list without [NaN] is one of its elements
    and is above all of them. *)
Lemma max_is_maximum l :
  l <> [] -> Forall notNaN l ->
  In (Math.max l) l /\ Forall (fun v => (v <=? Math.max l) = true) l.
Proof.
  intros Hne Hl. unfold Math.max.
  destruct (max_loop_spec l neg_infinity Hl eq_refl) as (M & _ & F).
  split; [|exact F]. destruct M as [M|M]; [|exact M].
  destruct l as [|x rest]; [contradiction|].
  inversion F as [|? ? Fx _]; subst. rewrite M in *.
  apply below_neg_infinity in Fx. subst. now left.
Qed.

(** [Math.min] of a non-empty list without [NaN] is one of its elements
    and is below all of them. *)
Lemma min_is_minimum l :
  l <> [] -> Forall notNaN l ->
  In (Math.min l) l /\ Forall (fun v => (Math.min l <=? v) = true) l.
Proof.
  intros Hne Hl. unfold Math.min.
  destruct (min_loop_spec l infinity Hl eq_refl) as (M & _ & F).
  split; [|exact F]. destruct M as [M|M]; [|exact M].
  destruct l as [|x rest]; [contradiction|].
  inversion F as [|? ? Fx _]; subst. rewrite M in *.
  apply above_infinity in Fx. subst. now left.
Qed.

(** A [NaN] among the arguments makes both [NaN]. *)
Lemma max_loop_nan l : forall h,
  Exists (fun v => Number.isNaN v = true) l -> Math.max_loop h l = nan.
Proof.
  induction l as [|x rest IH]; intros h H; inversion H; subst; simpl.
  - now rewrite H1.
  - destruct (Number.isNaN x); auto.
Qed.

End Extremes.

Section StatisticsFacts.

Local Open Scope float_scope.

Lemma sumValues_fold es :
  sumValues es = fold_left PrimFloat.add (List.map value es) zero.
Proof.
  unfold sumValues. generalize zero.
  induction es as [|e es IH]; intros acc; simpl; [reflexivity|apply IH].
Qed.

Lemma append_point_not_dash a b :
  String.append a (String "." b) <> "-"%string
  /\ String.append a (String "." b) <> "--"%string.
Proof.
  destruct a as [|c [|c' [|c'' a]]]; simpl; split; intros H;
    try discriminate H; inversion H.
Qed.

(** No number is displayed as the placeholder. *)
Lemma toFixed1_not_dashes x : ToFixed.toFixed1 x <> Str "--".
Proof.
  unfold ToFixed.toFixed1.
  destruct (Prim2SF x) as [sg|[]| |sg m e]; try discriminate.
  destruct (1e21 <=? abs x); [discriminate|].
  unfold ToFixed.point1.
  set (a := String.substring _ _ _). set (b := String.substring _ _ _).
  destruct (append_point_not_dash a b) as [H1 H2].
  destruct sg; intros H; inversion H; auto.
Qed.

(** The integer [toFixed(1)] prints is the nearest to ten times the
    value, the upper one on a tie. *)
Lemma tenths_nearest m e :
  (e < 0)%Z ->
  let n := ToFixed.tenths m e in
  ((2 * n - 1) * 2 ^ (- e) <= 20 * Zpos m < (2 * n + 1) * 2 ^ (- e))%Z.
Proof.
  intros He. unfold ToFixed.tenths.
  destruct (Z.leb_spec 0 e) as [H|_]; [lia|].
  replace (1 - e)%Z with (Z.succ (- e)) by lia.
  rewrite Z.pow_succ_r by lia.
  assert (Hp : (0 < 2 ^ (- e))%Z) by (apply Z.pow_pos_nonneg; lia).
  set (p := (2 ^ (- e))%Z) in *.
  pose proof (Z.div_mod (20 * Zpos m + p) (2 * p) ltac:(lia)) as Hd.
  pose proof (Z.mod_pos_bound (20 * Zpos m + p) (2 * p) ltac:(lia)) as Hb.
  set (q := ((20 * Zpos m + p) / (2 * p))%Z) in *. simpl. nia.
Qed.

End StatisticsFacts.

(** C3: for a metric with entries, the statistics range over all of its
    entries: the count is [entries.length], the highest and lowest cells
    show the maximum and the minimum of all values, the average cell shows
    the sum of all values divided by the count, and [toFixed(1)] is applied
    once, to the unrounded aggregate. *)
Theorem statistics_over_all_entries (metric : Metric) :
  entries metric <> [] ->
  let vs := List.map value (entries metric) in
  let s := statistics metric in
  totalEntries s = length (entries metric)
  /\ highest s = ToFixed.toFixed1 (Math.max vs)
  /\ lowest s = ToFixed.toFixed1 (Math.min vs)
  /\ average s =
       ToFixed.toFixed1
         (PrimFloat.div (fold_left PrimFloat.add vs PrimFloat.zero)
            (Number.of_nat (length vs)))
  /\ (Forall notNaN vs ->
       In (Math.max vs) vs
       /\ Forall (fun v => PrimFloat.leb v (Math.max vs) = true) vs
       /\ In (Math.min vs) vs
       /\ Forall (fun v => PrimFloat.leb (Math.min vs) v = true) vs).
Proof.
  intros Hne vs s. subst s. unfold statistics, meanValue.
  destruct (entries metric) as [|e es] eqn:E; [contradiction|].
  change (0 <? length (e :: es))%nat with true. cbv iota.
  rewrite sumValues_fold. subst vs. rewrite length_map.
  repeat split; try reflexivity;
    try (apply max_is_maximum; [discriminate|assumption]);
    apply min_is_minimum; (discriminate || assumption).
Qed.

(** The mean of [70, 72.5, 68] is the binary64 value nearest to
    [70.1666...], written below in hexadecimal, and is displayed as [70.2]. *)
Lemma statistics_over_all_entries_witness :
  totalEntries (statistics Sample.three) = 3%nat
  /\ highest (statistics Sample.three) = Str "72.5"
  /\ lowest (statistics Sample.three) = Str "68.0"
  /\ average (statistics Sample.three) = Str "70.2"
  /\ meanValue (entries Sample.three) = 0x1.18aaaaaaaaaabp+6%float
  /\ In 72.5%float [70; 72.5; 68]%float.
Proof.
  destruct (statistics_over_all_entries Sample.three ltac:(discriminate))
    as (Hc & Hh & Hl & Ha & Hm).
  destruct (Hm ltac:(repeat constructor)) as (Hin & _).
  split; [exact Hc|]. split; [exact Hh|]. split; [exact Hl|].
  split; [exact Ha|]. split; [reflexivity|exact Hin].
Defined.

(** The extremes of [Sample.twelve] are its two oldest entries, which the
    ten-entry history does not list. *)
Lemma statistics_beyond_window :
  let s := mkScreen {[ "weight" := Sample.twelve ]} (Some "weight") false [] false in
  (fun d => (length (detail_history d),
             highest (detail_statistics d),
             lowest (detail_statistics d),
             totalEntries (detail_statistics d)))
    <$> renderMetricDetail s
  = Some (10%nat, Str "90.0", Str "2.0", 12%nat).
Proof. vm_compute. reflexivity. Qed.

(** C4: for a metric without entries the highest, lowest and average cells
    show the placeholder and not a number: no number, zero included, is
    displayed as the placeholder. The count cell shows the length, [0]. *)
Theorem statistics_empty (metric : Metric) :
  entries metric = [] ->
  let s := statistics metric in
  highest s = Str "--" /\ lowest s = Str "--" /\ average s = Str "--"
  /\ totalEntries s = 0%nat
  /\ (forall x : number,
        highest s <> ToFixed.toFixed1 x /\ lowest s <> ToFixed.toFixed1 x
        /\ average s <> ToFixed.toFixed1 x /\ highest s <> Num x
        /\ lowest s <> Num x /\ average s <> Num x).
Proof.
  intros E s. subst s. unfold statistics. rewrite E. simpl.
  repeat split; try discriminate;
    intros H; symmetry in H; exact (toFixed1_not_dashes x H).
Qed.

Lemma statistics_empty_witness :
  highest (statistics (Sample.metric [])) = Str "--"
  /\ average (statistics (Sample.metric [])) <> ToFixed.toFixed1 0%float.
Proof.
  destruct (statistics_empty (Sample.metric []) eq_refl)
    as (Hh & _ & _ & _ & Hx).
  split; [exact Hh|]. apply (Hx 0%float).
Defined.

(** ** The catalog *)

Lemma findConfig_Some k c :
  findConfig k = Some c <-> In c metricConfigs /\ key c = k.
Proof.
  unfold findConfig. split.
  - intros H. apply find_some in H as [Hin Heq].
    split; [exact Hin|]. now apply String.eqb_eq.
  - intros [Hin <-]. simpl in Hin.
    repeat (destruct Hin as [<-|Hin]; [reflexivity|]). destruct Hin.
Qed.

Lemma findConfig_None k :
  findConfig k = None <-> ~ In k (List.map key metricConfigs).
Proof.
  unfold findConfig. split.
  - intros H Hin. apply in_map_iff in Hin as (c & <- & Hc).
    apply (find_none _ _ H) in Hc. now rewrite String.eqb_refl in Hc.
  - intros Hn. destruct (List.find _ _) as [c|] eqn:E; [|reflexivity].
    apply find_some in E as [Hin Heq]. apply String.eqb_eq in Heq. subst k.
    destruct Hn. now apply in_map.
Qed.

Lemma catalog_key_nonempty c : In c metricConfigs -> key c <> EmptyString.
Proof.
  simpl. intros H.
  repeat (destruct H as [<-|H]; [discriminate|]). destruct H.
Qed.

(** ** Display of the current value *)

Lemma currentValueOrDashes_zero m v :
  currentValue m = Some v -> PrimFloat.eqb v PrimFloat.zero = true ->
  currentValueOrDashes (Some m) = Str "--".
Proof.
  intros Hv Hz. unfold currentValueOrDashes, Number.truthy.
  now rewrite Hv, Hz.
Qed.

(** C8: when the current value of a metric is zero, its card and the hint
    of the add-entry modal show the placeholder [--], exactly what they
    show for a metric that was never recorded. *)
Theorem zero_shown_as_dashes (s : ScreenState) (config : MetricConfig)
    (m : Metric) (v : number) :
  In config metricConfigs ->
  metrics s !! key config = Some m ->
  currentValue m = Some v ->
  PrimFloat.eqb v PrimFloat.zero = true ->
  let unrecorded :=
    mkScreen (delete (key config) (metrics s)) (selectedMetric s)
      (showAddModal s) (newValue s) (loading s) in
  card_value (renderMetricCard s config) = Str "--"
  /\ card_value (renderMetricCard unrecorded config) = Str "--"
  /\ (selectedMetric s = Some (key config) ->
      inputHintValue s = Some (Str "--")
      /\ inputHintValue unrecorded = Some (Str "--")).
Proof.
  intros Hin Hm Hv Hz unrecorded. split; [|split].
  - unfold renderMetricCard. simpl. rewrite Hm.
    now apply (currentValueOrDashes_zero m v).
  - unfold renderMetricCard, unrecorded. simpl.
    now rewrite lookup_delete_eq.
  - intros Hs. apply catalog_key_nonempty in Hin.
    apply String.eqb_neq in Hin.
    unfold inputHintValue, unrecorded, isSelected. simpl.
    rewrite Hs, Hin. simpl. rewrite Hm, lookup_delete_eq. split; [|reflexivity].
    f_equal. now apply (currentValueOrDashes_zero m v).
Qed.

Lemma zero_shown_as_dashes_witness :
  let s := mkScreen {[ "weight" := Sample.metric [0%float; 70%float] ]}
             (Some "weight") true [] false in
  card_value (renderMetricCard s (mkConfig "weight" "Weight" "kg" "⚖️" "#3B82F6"))
    = Str "--"
  /\ inputHintValue s = Some (Str "--").
Proof.
  intros s.
  destruct (zero_shown_as_dashes s
              (mkConfig "weight" "Weight" "kg" "⚖️" "#3B82F6")
              (Sample.metric [0%float; 70%float]) 0%float)
    as (H1 & _ & H3).
  - simpl. auto.
  - reflexivity.
  - reflexivity.
  - reflexivity.
  - split; [exact H1|]. exact (proj1 (H3 eq_refl)).
Defined.

(** ** The overview counters *)

Lemma isImproving_iff metric :
  isImproving metric = true <->
  exists e0 e1 rest,
    entries metric = e0 :: e1 :: rest /\ Number.gt (value e0) (value e1) = true.
Proof.
  unfold isImproving.
  destruct (entries metric) as [|e0 [|e1 rest]]; simpl.
  - split; [discriminate|]. intros (? & ? & ? & H & _). discriminate H.
  - split; [discriminate|]. intros (? & ? & ? & H & _). discriminate H.
  - split.
    + intros H. now exists e0, e1, rest.
    + intros (? & ? & ? & H & Hg). now inversion H; subst.
Qed.

Lemma filter_fmap_snd {A B} (f : B -> bool) (l : list (A * B)) :
  List.filter f (l.*2) = (List.filter (fun kv => f kv.2) l).*2.
Proof.
  induction l as [|[a b] l IH]; [reflexivity|].
  cbn. destruct (f b); cbn; now rewrite IH.
Qed.

Lemma NoDup_fst_filter {A B} (f : A * B -> bool) (l : list (A * B)) :
  NoDup (l.*1) -> NoDup ((List.filter f l).*1).
Proof.
  induction l as [|kv l IH]; simpl; [auto|].
  rewrite NoDup_cons. intros [Hn Hd].
  destruct (f kv); simpl; [|auto].
  apply NoDup_cons. split; [|auto].
  intros Hin. apply Hn.
  apply list_elem_of_fmap in Hin as (kv' & -> & Hin).
  apply list_elem_of_fmap. exists kv'. split; [reflexivity|].
  apply list_elem_of_In. apply list_elem_of_In in Hin.
  now apply filter_In in Hin as [Hin _].
Qed.

(** C9: the [Improving] counter is the number of metric keys whose metric
    has two entries at least with [entries[0].value] strictly greater than
    [entries[1].value]. A metric whose two newest values are equal is not
    counted, although the trend of such a metric (for finite values) is
    classified positive. *)
Theorem improvingCount_strict (m : MetricData) :
  (exists ks : list string,
      NoDup ks /\ length ks = improvingCount m
      /\ forall k, In k ks <->
           exists metric e0 e1 rest,
             m !! k = Some metric
             /\ entries metric = e0 :: e1 :: rest
             /\ Number.gt (value e0) (value e1) = true)
  /\ (forall metric e0 e1 rest,
        entries metric = e0 :: e1 :: rest ->
        PrimFloat.eqb (value e0) (value e1) = true ->
        isImproving metric = false
        /\ (Number.isFinite (value e0) = true ->
            isPositive <$> getMetricChange metric = Some true)).
Proof.
  split.
  - exists ((List.filter (fun kv => isImproving kv.2) (map_to_list m)).*1).
    split; [|split].
    + apply NoDup_fst_filter, NoDup_fst_map_to_list.
    + unfold improvingCount, Object_values.
      now rewrite filter_fmap_snd, !length_fmap.
    + intros k. rewrite <- list_elem_of_In, list_elem_of_fmap. split.
      * intros ([k' metric] & -> & Hin).
        apply list_elem_of_In, filter_In in Hin as [Hin Himp].
        apply list_elem_of_In, elem_of_map_to_list in Hin.
        apply isImproving_iff in Himp as (e0 & e1 & rest & E & Hg).
        now exists metric, e0, e1, rest.
      * intros (metric & e0 & e1 & rest & Hk & E & Hg).
        exists (k, metric). split; [reflexivity|].
        apply list_elem_of_In, filter_In. split.
        -- now apply list_elem_of_In, elem_of_map_to_list.
        -- apply isImproving_iff. now exists e0, e1, rest.
  - intros metric e0 e1 rest E Heq. split.
    + unfold isImproving. rewrite E. simpl. now apply eqb_not_gt.
    + intros Hfin.
      apply (tie_is_positive metric e0 e1 rest E).
      now apply sub_tie.
Qed.

Lemma improvingCount_strict_witness :
  let m : MetricData :=
    <[ "weight"%string := Sample.tie ]>
      {[ "chest"%string := Sample.metric [10; 8]%float ]} in
  improvingCount m = 1%nat
  /\ isImproving Sample.tie = false
  /\ isPositive <$> getMetricChange Sample.tie = Some true.
Proof.
  intros m. destruct (improvingCount_strict m) as [_ H].
  destruct (H Sample.tie _ _ _ eq_refl eq_refl) as [H1 H2].
  split; [vm_compute; reflexivity|]. split; [exact H1|exact (H2 eq_refl)].
Defined.

(** ** The save handler *)

Section HandlerFacts.

Context {World Thrown : Type}.
Variable getMetrics : World -> (Thrown + MetricData) * World.
Variable addMetricEntry : string -> number -> World -> option Thrown * World.

Local Abbreviation save :=
  (handleSaveEntry World Thrown getMetrics addMetricEntry).

Lemma loadMetrics_forwards_nothing s w :
  forwarded World (loadMetrics World Thrown getMetrics s w) = [].
Proof.
  unfold loadMetrics, forwarded.
  now destruct (getMetrics w) as [[e|d] w'].
Qed.

Lemma forwarded_after_load k v s w tail_events :
  (forall ev, In ev tail_events ->
     match ev with CallAddMetricEntry _ _ => False | _ => True end) ->
  omap (fun ev => match ev with
                  | CallAddMetricEntry k v => Some (k, v)
                  | _ => None
                  end)
    (CallAddMetricEntry k v
       :: snd (loadMetrics World Thrown getMetrics s w) ++ tail_events)
  = [(k, v)].
Proof.
  intros Ht. simpl. f_equal. rewrite omap_app.
  pose proof (loadMetrics_forwards_nothing s w) as Hl.
  unfold forwarded in Hl. rewrite Hl. simpl.
  induction tail_events as [|ev evs IH]; [reflexivity|].
  simpl. pose proof (Ht ev (or_introl eq_refl)) as Hev.
  destruct ev; try contradiction; apply IH; intros; apply Ht; now right.
Qed.

(** What [handleSaveEntry] forwards to the store. *)
Lemma save_forwards s w :
  forwarded World (save s w) =
    if isSelected (selectedMetric s)
       && JsString.truthy (JsString.trim (newValue s))
       && negb (Number.isNaN (JsString.parseFloat (newValue s)))
    then [(default EmptyString (selectedMetric s),
           JsString.parseFloat (newValue s))]
    else [].
Proof.
  unfold save, handleSaveEntry.
  destruct (isSelected (selectedMetric s)); simpl; [|reflexivity].
  destruct (JsString.truthy (JsString.trim (newValue s))); simpl;
    [|reflexivity].
  destruct (Number.isNaN (JsString.parseFloat (newValue s))); simpl;
    [reflexivity|].
  destruct (addMetricEntry _ _ w) as [[e|] w1]; [reflexivity|].
  destruct (loadMetrics World Thrown getMetrics s w1) as [[s2 w2] log] eqn:El.
  unfold forwarded. cbn [snd].
  replace log with (snd (loadMetrics World Thrown getMetrics s w1))
    by now rewrite El.
  apply forwarded_after_load.
  intros ev [<-|[]]. exact I.
Qed.

(** C10: [handleSaveEntry] calls [addMetricEntry] exactly when a metric
    is selected, the trimmed input is not empty and [parseFloat] of the
    input is not [NaN]; it then forwards the selected key and the parsed
    value, once. No [NaN] is ever forwarded, but there is no test for
    finiteness: the input [Infinity] forwards [Infinity], and [12abc]
    forwards [12]. *)
Theorem handleSaveEntry_guard (s : ScreenState) (w : World) :
  let v := JsString.parseFloat (newValue s) in
  let passes :=
    isSelected (selectedMetric s) = true
    /\ JsString.trim (newValue s) <> []
    /\ Number.isNaN v = false in
  (passes <-> forwarded World (save s w) <> [])
  /\ (passes ->
      exists k, selectedMetric s = Some k
                /\ forwarded World (save s w) = [(k, v)])
  /\ (forall k x, In (k, x) (forwarded World (save s w)) ->
        Number.isNaN x = false)
  /\ (forall k, selectedMetric s = Some k -> k <> EmptyString ->
        (newValue s = JsString.lit "Infinity" ->
           forwarded World (save s w) = [(k, PrimFloat.infinity)])
        /\ (newValue s = JsString.lit "12abc" ->
            forwarded World (save s w) = [(k, 12%float)])).
Proof.
  intros v passes. subst passes v. rewrite save_forwards.
  assert (Ht : JsString.truthy (JsString.trim (newValue s)) = true
               <-> JsString.trim (newValue s) <> []).
  { destruct (JsString.trim (newValue s)); simpl; split; congruence. }
  split; [|split; [|split]].
  - split.
    + intros (H1 & H2 & H3). apply Ht in H2. now rewrite H1, H2, H3.
    + intros H.
      destruct (isSelected (selectedMetric s)); [|now destruct H].
      destruct (JsString.truthy (JsString.trim (newValue s))) eqn:E;
        [|now destruct H].
      destruct (Number.isNaN _); [now destruct H|].
      repeat split. now apply Ht.
  - intros (H1 & H2 & H3). apply Ht in H2. rewrite H1, H2, H3. simpl.
    destruct (selectedMetric s) as [k|]; [|discriminate H1].
    now exists k.
  - intros k x.
    destruct (isSelected (selectedMetric s)); simpl; [|intros []].
    destruct (JsString.truthy _); simpl; [|intros []].
    destruct (Number.isNaN _) eqn:E; simpl; [intros []|].
    intros [H|[]]. now inversion H; subst.
  - intros k Hk Hne. apply String.eqb_neq in Hne.
    unfold isSelected. rewrite Hk, Hne.
    split; intros ->; reflexivity.
Qed.

End HandlerFacts.

Lemma handleSaveEntry_guard_witness :
  forwarded _ (handleSaveEntry _ _ Sample.getMetrics Sample.addMetricEntry
                 (Sample.typing " 70.5 ") Sample.fresh)
    = [("weight"%string, 70.5%float)]
  /\ forwarded _ (handleSaveEntry _ _ Sample.getMetrics Sample.addMetricEntry
                    (Sample.typing "Infinity") Sample.fresh)
    = [("weight"%string, PrimFloat.infinity)].
Proof.
  split.
  - destruct (handleSaveEntry_guard Sample.getMetrics Sample.addMetricEntry
                (Sample.typing " 70.5 ") Sample.fresh) as (_ & H & _).
    destruct H as (k & Hk & Hf).
    + repeat split; [discriminate].
    + rewrite Hf. inversion Hk. reflexivity.
  - destruct (handleSaveEntry_guard Sample.getMetrics Sample.addMetricEntry
                (Sample.typing "Infinity") Sample.fresh) as (_ & _ & _ & H).
    destruct (H "weight"%string eq_refl ltac:(discriminate)) as [Hinf _].
    exact (Hinf eq_refl).
Defined.

(** ** The metric store *)

Section StorageFacts.

Import Storage.

Variable formatLastUpdated : Entry -> string.

Local Abbreviation append := (addMetricEntry formatLastUpdated).

Lemma getMetrics_snapshot st :
  fst (getMetrics st) =
    match snapshot st with Some d => inr d | None => inl StorageReadError end.
Proof.
  unfold getMetrics, snapshot.
  destruct (resident st); [reflexivity|]. now destruct (medium st).
Qed.

(** A call with a catalog key and a finite value on a readable, writable
    store puts the new entry in front for that key and persists the
    snapshot. *)
Lemma append_ok now k v st d config :
  findConfig k = Some config -> Number.isFinite v = true ->
  snapshot st = Some d -> writable st = true ->
  let entry := mkEntry v (cunit config) (moment_date now) (moment_time now) in
  let d' := <[k := prepend formatLastUpdated entry (d !! k)]> d in
  append now k v st =
    (inr d', mkStore (Doc d') (Some d') true (S (writes st))).
Proof.
  intros Hc Hf Hs Hw entry d'. unfold append, addMetricEntry.
  rewrite Hc, Hf. simpl.
  pose proof (getMetrics_snapshot st) as Hg. rewrite Hs in Hg.
  destruct (getMetrics st) as [r st1]. simpl in Hg. subst r.
  now rewrite Hw.
Qed.

(** A failed call returns the store it was given. *)
Lemma append_failure now k v st e st' :
  append now k v st = (inl e, st') -> st' = st.
Proof.
  unfold append, addMetricEntry.
  destruct (findConfig k); [|now inversion 1].
  destruct (negb (Number.isFinite v)); [now inversion 1|].
  destruct (getMetrics st) as [[e'|d] st1]; [now inversion 1|].
  destruct (writable st); now inversion 1.
Qed.

Lemma entries_of_insert k k' m (d : MetricData) :
  entries_of k' (<[k := m]> d) =
    if decide (k = k') then entries m else entries_of k' d.
Proof.
  unfold entries_of. rewrite lookup_insert. now destruct (decide (k = k')).
Qed.

Lemma run_cons c calls st :
  run formatLastUpdated (c :: calls) st =
    run formatLastUpdated calls
      (snd (append (fst (fst c)) (snd (fst c)) (snd c) st)).
Proof. now destruct c as [[now k] v]. Qed.

Lemma appended_cons k' now k v calls :
  appended k' ((now, k, v) :: calls) =
    match (if String.eqb k k' then entry_of (now, k, v) else None) with
    | Some e => e :: appended k' calls
    | None => appended k' calls
    end.
Proof. reflexivity. Qed.

(** One call on a readable, writable store: the snapshot it leaves. *)
Lemma append_step now k v st d :
  snapshot st = Some d -> writable st = true ->
  exists d',
    snapshot (snd (append now k v st)) = Some d'
    /\ writable (snd (append now k v st)) = true
    /\ (forall k',
          entries_of k' d' =
            match (if String.eqb k k' then entry_of (now, k, v) else None) with
            | Some e => e :: entries_of k' d
            | None => entries_of k' d
            end)
    /\ (map_Forall (fun _ m => current_is_head m) d ->
        map_Forall (fun _ m => current_is_head m) d').
Proof.
  intros Hs Hw. unfold entry_of.
  destruct (findConfig k) as [config|] eqn:Hc;
    [destruct (Number.isFinite v) eqn:Hf|].
  - rewrite (append_ok now k v st d config Hc Hf Hs Hw). simpl.
    eexists. split; [reflexivity|]. split; [reflexivity|]. split.
    + intros k'. rewrite entries_of_insert.
      destruct (String.eqb_spec k k') as [->|Hne].
      * rewrite decide_True by reflexivity. reflexivity.
      * now rewrite decide_False.
    + intros Hall. apply map_Forall_insert_2; [reflexivity|exact Hall].
  - exists d. unfold append, addMetricEntry. rewrite Hc, Hf. simpl.
    repeat split; auto. intros k'. now destruct (String.eqb k k').
  - exists d. unfold append, addMetricEntry. rewrite Hc. simpl.
    repeat split; auto. intros k'. now destruct (String.eqb k k').
Qed.

(** C1: after any sequence of [appendEntry] calls on a readable, writable
    store, the entries of every key are the entries appended to it, the
    newest first, in front of the entries it had; on a previously empty
    metric, [n] appended entries give a list of length [n] whose first
    element is the last appended and whose last element is the first
    appended. The current value of every metric stays the value of its
    first entry. *)
Theorem append_newest_first (calls : list Call) (st : Store) (d : MetricData) :
  snapshot st = Some d ->
  writable st = true ->
  map_Forall (fun _ m => current_is_head m) d ->
  exists d',
    snapshot (run formatLastUpdated calls st) = Some d'
    /\ (forall k,
          entries_of k d' = rev (appended k calls) ++ entries_of k d)
    /\ (forall k, entries_of k d = [] ->
          length (entries_of k d') = length (appended k calls)
          /\ head (entries_of k d') = last (appended k calls)
          /\ last (entries_of k d') = head (appended k calls))
    /\ (forall k m, d' !! k = Some m ->
          currentValue m = value <$> head (entries m)).
Proof.
  intros Hs Hw Hinv.
  assert (H : exists d',
    snapshot (run formatLastUpdated calls st) = Some d'
    /\ (forall k, entries_of k d' = rev (appended k calls) ++ entries_of k d)
    /\ map_Forall (fun _ m => current_is_head m) d').
  { revert st d Hs Hw Hinv.
    induction calls as [|[[now k] v] calls IH]; intros st d Hs Hw Hinv.
    - exists d. simpl. auto.
    - rewrite run_cons. cbn [fst snd].
      destruct (append_step now k v st d Hs Hw) as (d1 & Hs1 & Hw1 & He1 & Hi1).
      destruct (IH _ d1 Hs1 Hw1 (Hi1 Hinv)) as (d' & Hs' & He' & Hi').
      exists d'. split; [exact Hs'|]. split; [|exact Hi'].
      intros k'. rewrite He', He1, appended_cons.
      destruct (if String.eqb k k' then entry_of (now, k, v) else None);
        cbn [rev]; [|reflexivity].
      now rewrite <- app_assoc. }
  destruct H as (d' & Hs' & He' & Hi'). exists d'.
  split; [exact Hs'|]. split; [exact He'|]. split.
  - intros k Hk. rewrite He', Hk, app_nil_r.
    rewrite length_rev. split; [reflexivity|].
    rewrite rev_alt. fold (reverse (appended k calls)).
    now rewrite head_reverse, last_reverse.
  - intros k m Hm. exact (Hi' k m Hm).
Qed.

(** What a successful call did. *)
Lemma append_success now k v st d' st' :
  append now k v st = (inr d', st') ->
  exists config d,
    findConfig k = Some config /\ Number.isFinite v = true
    /\ snapshot st = Some d /\ writable st = true
    /\ d' = <[k := prepend formatLastUpdated
                     (mkEntry v (cunit config) (moment_date now)
                        (moment_time now)) (d !! k)]> d
    /\ st' = mkStore (Doc d') (Some d') true (S (writes st)).
Proof.
  unfold append, addMetricEntry. intros H.
  destruct (findConfig k) as [config|]; [|discriminate H].
  destruct (Number.isFinite v); [|discriminate H]. simpl in H.
  pose proof (getMetrics_snapshot st) as Hg.
  destruct (getMetrics st) as [[e|d] st1]; [discriminate H|].
  simpl in Hg. destruct (snapshot st) as [d0|]; [|discriminate Hg].
  inversion Hg; subst d0.
  destruct (writable st) eqn:Hw; [|discriminate H].
  inversion H; subst. exists config, d. repeat split.
Qed.

(** C5: [appendEntry] fails with [ValidationError] for every key outside
    the catalog, and fails for every value that is not finite, with
    [InvalidValueError] when the key is in the catalog. A failed call
    leaves the store as it was: same medium, no write. A call either
    fails so, or persists the full new snapshot with one write. *)
Theorem append_rejects (now : Moment) (k : string) (v : number) (st : Store) :
  (~ In k (List.map key metricConfigs) ->
     append now k v st = (inl ValidationError, st))
  /\ (Number.isFinite v = false ->
      exists e, append now k v st = (inl e, st)
                /\ (In k (List.map key metricConfigs) ->
                    e = InvalidValueError))
  /\ (forall e st', append now k v st = (inl e, st') ->
        st' = st /\ medium st' = medium st /\ writes st' = writes st
        /\ fst (getMetric k st') = fst (getMetric k st))
  /\ (forall d' st', append now k v st = (inr d', st') ->
        medium st' = Doc d' /\ writes st' = S (writes st)
        /\ snapshot st' = Some d').
Proof.
  split; [|split; [|split]].
  - intros Hk. apply findConfig_None in Hk.
    unfold append, addMetricEntry. now rewrite Hk.
  - intros Hf. unfold append, addMetricEntry. rewrite Hf. simpl.
    destruct (findConfig k) as [config|] eqn:Hc.
    + exists InvalidValueError. split; reflexivity.
    + exists ValidationError. split; [reflexivity|].
      intros Hin. apply findConfig_None in Hc. contradiction.
  - intros e st' H. apply append_failure in H. subst st'. repeat split.
  - intros d' st' H.
    apply append_success in H as (config & d & _ & _ & _ & _ & _ & ->).
    repeat split.
Qed.

(** C6: a successful [appendEntry] on key [A] leaves the metric of every
    other key [B] as it was: same record, same entries; only the metric
    of [A] gains an entry, in front. *)
Theorem append_isolated (now : Moment) (A B : string) (v : number)
    (st st' : Store) (d d' : MetricData) :
  A <> B ->
  snapshot st = Some d ->
  append now A v st = (inr d', st') ->
  d' !! B = d !! B
  /\ entries_of B d' = entries_of B d
  /\ snapshot st' = Some d'
  /\ exists e, value e = v /\ entries_of A d' = e :: entries_of A d.
Proof.
  intros Hne Hs H.
  apply append_success in H as (config & d0 & _ & _ & Hs0 & _ & -> & ->).
  rewrite Hs in Hs0. inversion Hs0; subst d0.
  split; [now apply lookup_insert_ne|]. split; [|split].
  - rewrite entries_of_insert. now rewrite decide_False.
  - reflexivity.
  - eexists. split; [|rewrite entries_of_insert, decide_True by reflexivity;
                      reflexivity].
    reflexivity.
Qed.

End StorageFacts.

Lemma append_newest_first_witness :
  exists d',
    Storage.snapshot (Storage.run Sample.format Sample.calls Sample.fresh)
      = Some d'
    /\ value <$> Storage.entries_of "weight" d' = [71.5; 70]%float
    /\ currentValue <$> d' !! "weight"%string = Some (Some 71.5%float).
Proof.
  destruct (append_newest_first Sample.format Sample.calls Sample.fresh ∅
              eq_refl eq_refl (map_Forall_empty _))
    as (d' & Hs & He & _ & Hc).
  exists d'. split; [exact Hs|]. split.
  - rewrite He. reflexivity.
  - destruct (d' !! "weight"%string) as [m|] eqn:Em.
    + simpl. f_equal. rewrite (Hc _ _ Em).
      pose proof (He "weight"%string) as Hw.
      unfold Storage.entries_of in Hw at 1. rewrite Em in Hw.
      rewrite Hw. reflexivity.
    + pose proof (He "weight"%string) as Hw.
      unfold Storage.entries_of in Hw at 1. rewrite Em in Hw.
      discriminate Hw.
Defined.

Lemma append_rejects_witness :
  Storage.addMetricEntry Sample.format Sample.now "height" 170%float Sample.fresh
    = (inl Storage.ValidationError, Sample.fresh)
  /\ Storage.addMetricEntry Sample.format Sample.now "weight" PrimFloat.nan
       Sample.fresh
     = (inl Storage.InvalidValueError, Sample.fresh)
  /\ Number.isFinite PrimFloat.infinity = false.
Proof.
  destruct (append_rejects Sample.format Sample.now "height" 170%float
              Sample.fresh) as (H1 & _).
  split; [apply H1; vm_compute; intuition discriminate|].
  destruct (append_rejects Sample.format Sample.now "weight" PrimFloat.nan
              Sample.fresh) as (_ & H2 & _).
  destruct (H2 eq_refl) as (e & He & Hk).
  rewrite He, Hk; [split; reflexivity|]. simpl. auto.
Defined.

Lemma append_isolated_witness :
  let st :=
    Storage.run Sample.format [(Sample.now, "chest"%string, 30%float)]
      Sample.fresh in
  match Storage.addMetricEntry Sample.format Sample.later "weight" 71.5%float st
  with
  | (inr d', _) =>
      value <$> Storage.entries_of "chest" d' = [30%float]
      /\ value <$> Storage.entries_of "weight" d' = [71.5%float]
  | (inl _, _) => False
  end.
Proof.
  intros st.
  destruct (Storage.addMetricEntry Sample.format Sample.later "weight"
              71.5%float st) as [[e|d'] st'] eqn:E.
  - apply (f_equal (fun r => match fst r with inl _ => true | inr _ => false end))
      in E.
    vm_compute in E. discriminate E.
  - destruct (append_isolated Sample.format Sample.later "weight" "chest"
                71.5%float st st'
                {[ "chest"%string :=
                     Storage.prepend Sample.format
                       (mkEntry 30%float "in" "1/5/2025" "8:30:00 AM") None ]}
                d' ltac:(discriminate) eq_refl E)
      as (_ & Hb & _ & e & Hv & Ha).
    rewrite Hb, Ha, <- Hv. split; reflexivity.
Defined.

(** * Further properties of the screen *)

(** ** Outcomes of the save handler *)

Lemma trimStart_blank (s : JsString.t) :
  Forall (fun c => JsString.isWhiteSpace c = true) s -> JsString.trimStart s = [].
Proof.
  induction 1 as [|c rest Hc _ IH]; simpl; [reflexivity|]. now rewrite Hc.
Qed.

Lemma trim_blank (s : JsString.t) :
  Forall (fun c => JsString.isWhiteSpace c = true) s -> JsString.trim s = [].
Proof.
  intros H. unfold JsString.trim. now rewrite (trimStart_blank s H).
Qed.

Section SaveOutcomes.

Context {World Thrown : Type}.
Variable getMetrics : World -> (Thrown + MetricData) * World.
Variable addMetricEntry : string -> number -> World -> option Thrown * World.

Local Abbreviation save :=
  (handleSaveEntry World Thrown getMetrics addMetricEntry).

(** X1: a save that the guard rejects changes neither the screen nor the
    store and raises one alert: [Please enter a valid value] when no metric
    is selected or the trimmed input is empty (an input of white space only
    is such), [Please enter a valid number] when the input does not start
    with a number. *)
Theorem save_rejected (s : ScreenState) (w : World) :
  (isSelected (selectedMetric s) = false \/ JsString.trim (newValue s) = [] ->
     save s w = (s, w, [Alert "Error" "Please enter a valid value"]))
  /\ (Forall (fun c => JsString.isWhiteSpace c = true) (newValue s) ->
      save s w = (s, w, [Alert "Error" "Please enter a valid value"]))
  /\ (isSelected (selectedMetric s) = true ->
      JsString.trim (newValue s) <> [] ->
      Number.isNaN (JsString.parseFloat (newValue s)) = true ->
      save s w = (s, w, [Alert "Error" "Please enter a valid number"])).
Proof.
  assert (H1 : isSelected (selectedMetric s) = false
               \/ JsString.trim (newValue s) = [] ->
               save s w = (s, w, [Alert "Error" "Please enter a valid value"])).
  { unfold handleSaveEntry. intros [H|H]; rewrite H; [reflexivity|].
    simpl. now rewrite orb_true_r. }
  split; [exact H1|]. split.
  - intros Hb. apply H1. right. now apply trim_blank.
  - intros Hs Ht Hn. unfold handleSaveEntry. rewrite Hs, Hn.
    destruct (JsString.trim (newValue s)); [contradiction|reflexivity].
Qed.

(** X2: when the guard passes and [addMetricEntry] throws, the screen is
    left as it was (the modal stays open with the typed text, the metrics
    shown are not reloaded: [getMetrics] is not called) and the user gets
    [Failed to add metric entry]. *)
Theorem save_store_failure (s : ScreenState) (w w1 : World) (k : string)
    (e : Thrown) :
  selectedMetric s = Some k -> k <> EmptyString ->
  JsString.trim (newValue s) <> [] ->
  Number.isNaN (JsString.parseFloat (newValue s)) = false ->
  addMetricEntry k (JsString.parseFloat (newValue s)) w = (Some e, w1) ->
  save s w =
    (s, w1,
     [CallAddMetricEntry k (JsString.parseFloat (newValue s));
      ConsoleError "Error adding metric entry:";
      Alert "Error" "Failed to add metric entry"]).
Proof.
  intros Hk Hne Ht Hn Ha. apply String.eqb_neq in Hne.
  unfold handleSaveEntry, isSelected. rewrite Hk, Hne, Hn. simpl.
  destruct (JsString.trim (newValue s)); [contradiction|]. simpl.
  now rewrite Ha.
Qed.

(** X3: when the guard passes and [addMetricEntry] succeeds, the metrics
    are read again from the store exactly once, after the call; the modal
    is closed, the input cleared and the selection kept, and the last event
    is the [Success] alert, also when the reload fails. The metrics shown
    are the reloaded ones, or the previous ones when the reload fails. *)
Theorem save_success (s : ScreenState) (w w1 : World) (k : string) :
  selectedMetric s = Some k -> k <> EmptyString ->
  JsString.trim (newValue s) <> [] ->
  Number.isNaN (JsString.parseFloat (newValue s)) = false ->
  addMetricEntry k (JsString.parseFloat (newValue s)) w = (None, w1) ->
  let reload := getMetrics w1 in
  save s w =
    (mkScreen (match fst reload with inr d => d | inl _ => metrics s end)
       (Some k) false [] false,
     snd reload,
     CallAddMetricEntry k (JsString.parseFloat (newValue s))
       :: CallGetMetrics
       :: match fst reload with
          | inr _ => []
          | inl _ => [ConsoleError "Error loading metrics:";
                      Alert "Error" "Failed to load metrics data"]
          end
       ++ [Alert "Success" "Metric entry added successfully"]).
Proof.
  intros Hk Hne Ht Hn Ha reload. subst reload.
  apply String.eqb_neq in Hne.
  unfold handleSaveEntry, isSelected, loadMetrics. rewrite Hk, Hne, Hn. simpl.
  destruct (JsString.trim (newValue s)); [contradiction|]. simpl.
  rewrite Ha. destruct (getMetrics w1) as [[err|d] w2]; simpl;
    now rewrite ?Hk.
Qed.

End SaveOutcomes.

Lemma save_rejected_witness :
  handleSaveEntry _ _ Sample.getMetrics Sample.addMetricEntry
    (Sample.typing "   ") Sample.fresh
  = (Sample.typing "   ", Sample.fresh,
     [Alert "Error" "Please enter a valid value"])
  /\ handleSaveEntry _ _ Sample.getMetrics Sample.addMetricEntry
       (Sample.typing "abc") Sample.fresh
     = (Sample.typing "abc", Sample.fresh,
        [Alert "Error" "Please enter a valid number"]).
Proof.
  destruct (save_rejected Sample.getMetrics Sample.addMetricEntry
              (Sample.typing "   ") Sample.fresh) as (_ & H & _).
  split; [apply H; repeat constructor|].
  destruct (save_rejected Sample.getMetrics Sample.addMetricEntry
              (Sample.typing "abc") Sample.fresh) as (_ & _ & H3).
  apply H3; [reflexivity|discriminate|reflexivity].
Defined.

Lemma save_store_failure_witness :
  handleSaveEntry _ _ Sample.getMetrics Sample.addMetricEntry
    (Sample.typing "Infinity") Sample.fresh
  = (Sample.typing "Infinity", Sample.fresh,
     [CallAddMetricEntry "weight" PrimFloat.infinity;
      ConsoleError "Error adding metric entry:";
      Alert "Error" "Failed to add metric entry"]).
Proof.
  apply (save_store_failure Sample.getMetrics Sample.addMetricEntry
           (Sample.typing "Infinity") Sample.fresh Sample.fresh "weight"
           Storage.InvalidValueError);
    [reflexivity|discriminate|discriminate|reflexivity|reflexivity].
Defined.

Lemma save_success_witness :
  (fun o => (showAddModal (fst (fst o)), newValue (fst (fst o)),
             value <$> Storage.entries_of "weight" (metrics (fst (fst o))),
             last (snd o)))
    (handleSaveEntry _ _ Sample.getMetrics Sample.addMetricEntry
       (Sample.typing "70.5") Sample.fresh)
  = (false, [], [70.5%float],
     Some (Alert "Success" "Metric entry added successfully")).
Proof.
  rewrite (save_success Sample.getMetrics Sample.addMetricEntry
             (Sample.typing "70.5") Sample.fresh
             (snd (Sample.addMetricEntry "weight" 70.5%float Sample.fresh))
             "weight");
    [reflexivity|reflexivity|discriminate|discriminate|reflexivity|reflexivity].
Defined.

(** ** Interaction *)

Section MachineFacts.

Context {World Thrown : Type}.
Variable getMetrics : World -> (Thrown + MetricData) * World.
Variable addMetricEntry : string -> number -> World -> option Thrown * World.

Local Abbreviation stepM := (step getMetrics addMetricEntry).
Local Abbreviation runM := (run getMetrics addMetricEntry).
Local Abbreviation resumeM := (resume getMetrics addMetricEntry).
Local Abbreviation save :=
  (handleSaveEntry World Thrown getMetrics addMetricEntry).

Lemma finishLoad_keeps (s : ScreenState) (r : Thrown + MetricData) :
  selectedMetric (fst (finishLoad s r)) = selectedMetric s
  /\ loading (fst (finishLoad s r)) = false
  /\ forall k v, ~ In (CallAddMetricEntry k v) (snd (finishLoad s r)).
Proof.
  destruct r as [e|d]; simpl; (split; [reflexivity|]); (split; [reflexivity|]);
    intros k v H; repeat (destruct H as [H|H]; [discriminate H|]); destruct H.
Qed.

Lemma In_delete {A} (x : A) (i : nat) (l : list A) :
  In x (delete i l) -> In x l.
Proof.
  revert i. induction l as [|y l IH]; intros [|i]; simpl; auto.
  intros [H|H]; eauto.
Qed.

Lemma interactive_loaded s : interactive s = true -> loading s = false.
Proof. unfold interactive. now destruct (loading s). Qed.

Lemma shown_loaded c s :
  (gridShown s = true -> loading s = false)
  /\ (detailShown c s = true -> loading s = false)
  /\ (modalShown s = true -> loading s = false)
  /\ (inputShown s = true -> loading s = false).
Proof.
  unfold gridShown, detailShown, inputShown, modalShown, interactive.
  destruct (loading s); simpl; auto.
Qed.

(** While the loading view is shown nothing can be pressed. *)
Lemma pressed_loaded a (m m' : Machine World) :
  stepM a m = Some m' -> (forall i, a <> Resume i) ->
  loading (screen m) = false.
Proof.
  intros H Ha.
  destruct (shown_loaded (catalog m) (screen m)) as (G & D & Mo & I).
  destruct a as [i|i| | |typed| |]; simpl in H;
    try (now destruct (Ha i));
    try (destruct (gridShown _) eqn:E; [auto|discriminate H]);
    try (destruct (detailShown _ _) eqn:E; [auto|discriminate H]);
    try (destruct (inputShown _) eqn:E; [auto|discriminate H]);
    try (destruct (modalShown _) eqn:E; [auto|discriminate H]).
Qed.

Lemma callsInCatalog_quiet (m : Machine World) s (w : World) c extra :
  callsInCatalog m ->
  (forall k v, ~ In (CallAddMetricEntry k v) extra) ->
  callsInCatalog (mkMachine s w c (pending m) (log m ++ extra)).
Proof.
  intros [Hl Hp] Hx. split; [|exact Hp].
  intros k v H. cbn [log] in H. apply in_app_or in H as [H|H]; [auto|].
  now apply Hx in H.
Qed.

Lemma pressSave_sound (w : World) (m : Machine World) :
  loading (screen m) = false ->
  wellFormed w m -> wellFormed w (pressSave m).
Proof.
  intros Hl (Hc & Hs & [Hlog Hpen] & _). unfold pressSave.
  assert (Halert : forall title msg,
    wellFormed w
      (mkMachine (screen m) (world m) (catalog m) (pending m)
         (log m ++ [Alert title msg]))).
  { intros title msg. split; [exact Hc|]. split; [exact Hs|]. split.
    - apply (callsInCatalog_quiet m); [now split|].
      intros k v [H|[]]. discriminate H.
    - cbn [screen]. congruence. }
  destruct (negb (isSelected (selectedMetric (screen m))) || _) eqn:Eg;
    [apply Halert|].
  destruct (Number.isNaN _) eqn:En; [apply Halert|].
  apply orb_false_elim in Eg as [Eg _]. apply negb_false_iff in Eg.
  unfold selectionInCatalog in Hs.
  destruct (selectedMetric (screen m)) as [k|] eqn:Ek; [|discriminate Eg].
  cbn [default].
  split; [exact Hc|].
  split; [unfold selectionInCatalog; cbn [screen]; now rewrite Ek|].
  split; [|cbn [screen]; congruence].
  split; cbn [log pending]; intros k' v' H; apply in_app_or in H as [H|H]; auto.
  - destruct H as [H|[]]. now inversion H; subst.
  - destruct H as [H|[]]. now inversion H; subst.
Qed.

Lemma resume_sound t (m : Machine World) :
  catalog m = metricConfigs ->
  selectionInCatalog (screen m) ->
  callsInCatalog m ->
  (loading (screen m) = true -> t = AwaitLoad) ->
  (forall k v, t = AwaitAdd k v ->
     In k (List.map key metricConfigs) /\ Number.isNaN v = false) ->
  forall m', resumeM t m = m' ->
  catalog m' = metricConfigs
  /\ selectionInCatalog (screen m')
  /\ callsInCatalog m'
  /\ loading (screen m') = false.
Proof.
  intros Hc Hs Hcalls Hload Hadd m' <-.
  destruct t as [|k v|]; cbn [resume].
  - destruct (getMetrics (world m)) as [r w'].
    destruct (finishLoad_keeps (screen m) r) as (F1 & F2 & F3).
    destruct (finishLoad (screen m) r) as [s' events]. cbn [fst snd] in *.
    split; [exact Hc|]. split; [unfold selectionInCatalog; cbn [screen selectedMetric]; now rewrite F1|].
    split; [now apply (callsInCatalog_quiet m)|exact F2].
  - assert (Hf : loading (screen m) = false).
    { destruct (loading (screen m)); [|reflexivity].
      discriminate (Hload eq_refl). }
    destruct (addMetricEntry k v (world m)) as [[e|] w1].
    + split; [exact Hc|]. split; [exact Hs|]. split; [|exact Hf].
      apply (callsInCatalog_quiet m); [exact Hcalls|].
      intros k' v' H. repeat (destruct H as [H|H]; [discriminate H|]).
      destruct H.
    + split; [exact Hc|]. split; [exact Hs|]. split; [|exact Hf].
      destruct Hcalls as [Hlog Hpen]. split; cbn [log pending].
      * intros k' v' H. apply in_app_or in H as [H|[H|[]]]; [auto|].
        discriminate H.
      * intros k' v' H. apply in_app_or in H as [H|[H|[]]]; [auto|].
        discriminate H.
  - destruct (getMetrics (world m)) as [r w'].
    destruct (finishLoad_keeps (screen m) r) as (F1 & F2 & F3).
    destruct (finishLoad (screen m) r) as [s' events]. cbn [fst snd] in *.
    split; [exact Hc|]. split; [unfold selectionInCatalog; cbn [screen selectedMetric]; now rewrite F1|].
    split; [|exact F2].
    apply (callsInCatalog_quiet m); [exact Hcalls|].
    intros k v H. apply in_app_or in H as [H|[H|[]]]; [now apply F3 in H|].
    discriminate H.
Qed.

Lemma step_sound (w : World) a (m m' : Machine World) :
  wellFormed w m -> stepM a m = Some m' -> wellFormed w m'.
Proof.
  intros Hwf Hstep.
  assert (Hdone : catalog m' = metricConfigs
                  /\ selectionInCatalog (screen m')
                  /\ callsInCatalog m'
                  /\ loading (screen m') = false
                  -> wellFormed w m').
  { intros (H1 & H2 & H3 & H4). split; [exact H1|]. split; [exact H2|].
    split; [exact H3|]. congruence. }
  destruct (Hwf) as (Hc & Hs & Hcalls & Hl).
  destruct a as [i|i| | |typed| |].
  - simpl in Hstep. destruct (pending m !! i) as [t|] eqn:Et; [|discriminate].
    injection Hstep as <-. apply Hdone.
    apply (resume_sound t
             (mkMachine (screen m) (world m) (catalog m)
                (delete i (pending m)) (log m)));
      [exact Hc|exact Hs| | | |reflexivity].
    + destruct Hcalls as [Hlog Hpen]. split; [exact Hlog|].
      intros k v H. apply In_delete in H. auto.
    + cbn [screen]. intros Hld. specialize (Hl Hld). subst m.
      destruct i as [|[|i]]; simpl in Et; [now inversion Et|discriminate Et..].
    + intros k v ->. destruct Hcalls as [_ Hpen]. apply Hpen.
      apply list_elem_of_In, list_elem_of_lookup. now exists i.
  - pose proof (pressed_loaded _ m m' Hstep ltac:(discriminate)) as Hld.
    simpl in Hstep. destruct (gridShown _); [|discriminate].
    destruct (catalog m !! i) as [config|] eqn:Ec; [|discriminate].
    injection Hstep as <-. apply Hdone.
    split; [exact Hc|]. split; [|split; [exact Hcalls|exact Hld]].
    unfold selectionInCatalog.
    cbn [screen withScreen handleMetricPress selectedMetric]. rewrite <- Hc.
    apply in_map, list_elem_of_In, list_elem_of_lookup. now exists i.
  - pose proof (pressed_loaded _ m m' Hstep ltac:(discriminate)) as Hld.
    simpl in Hstep. destruct (detailShown _ _); [|discriminate].
    injection Hstep as <-. apply Hdone.
    split; [exact Hc|]. split; [exact I|]. split; [exact Hcalls|exact Hld].
  - pose proof (pressed_loaded _ m m' Hstep ltac:(discriminate)) as Hld.
    simpl in Hstep. destruct (detailShown _ _); [|discriminate].
    injection Hstep as <-. apply Hdone. unfold handleAddEntry.
    destruct (negb _); (split; [exact Hc|]); (split; [exact Hs|]);
      (split; [exact Hcalls|exact Hld]).
  - pose proof (pressed_loaded _ m m' Hstep ltac:(discriminate)) as Hld.
    simpl in Hstep. destruct (inputShown _); [|discriminate].
    injection Hstep as <-. apply Hdone.
    split; [exact Hc|]. split; [exact Hs|]. split; [exact Hcalls|exact Hld].
  - pose proof (pressed_loaded _ m m' Hstep ltac:(discriminate)) as Hld.
    simpl in Hstep. destruct (modalShown _); [|discriminate].
    injection Hstep as <-. now apply pressSave_sound.
  - pose proof (pressed_loaded _ m m' Hstep ltac:(discriminate)) as Hld.
    simpl in Hstep. destruct (modalShown _); [|discriminate].
    injection Hstep as <-. apply Hdone.
    split; [exact Hc|]. split; [exact Hs|]. split; [exact Hcalls|exact Hld].
Qed.

Lemma mounted_sound (w : World) : wellFormed w (mounted w).
Proof.
  split; [reflexivity|]. split; [exact I|]. split; [|reflexivity].
  split; intros k v [H|[]]; discriminate H.
Qed.

Lemma run_sound (w : World) actions : forall (m m' : Machine World),
  wellFormed w m -> runM actions m = Some m' -> wellFormed w m'.
Proof.
  induction actions as [|a rest IH]; intros m m' Hwf H; simpl in H.
  - now inversion H; subst.
  - destruct (stepM a m) as [m1|] eqn:E; [|discriminate H].
    eapply IH; [|exact H]. eapply step_sound; eauto.
Qed.

(** X4: in every run of the mounted screen, whatever the store answers
    and however the user's actions and the settling of promises
    interleave, the selection is empty or a key of the catalog, every call
    of [addMetricEntry] made or still waiting carries a key of the catalog
    and a value that is not [NaN], and the loading view is shown only
    while the machine is still as it was mounted. *)
Theorem interaction_safe (w : World) (actions : list Action)
    (m : Machine World) :
  runM actions (mounted w) = Some m ->
  selectionInCatalog (screen m)
  /\ (forall k v, In (CallAddMetricEntry k v) (log m) ->
        In k (List.map key metricConfigs) /\ Number.isNaN v = false)
  /\ (forall k v, In (AwaitAdd k v) (pending m) ->
        In k (List.map key metricConfigs) /\ Number.isNaN v = false)
  /\ (loading (screen m) = true -> m = mounted w).
Proof.
  intros H.
  destruct (run_sound w actions _ _ (mounted_sound w) H)
    as (_ & Hs & [Hlog Hpen] & Hl).
  split; [exact Hs|]. split; [exact Hlog|]. split; [exact Hpen|exact Hl].
Qed.

Lemma findIn_Some (c : list MetricConfig) k config :
  findIn c k = Some config -> In config c /\ key config = k.
Proof.
  unfold findIn. intros H. apply find_some in H as [Hin Heq].
  split; [exact Hin|]. now apply String.eqb_eq.
Qed.

(** C7: the catalog is the fixed sequence of ten descriptors (key, name,
    unit, icon, color) with pairwise distinct keys, and it is never
    changed: in every run of the screen, evaluating [metricConfigs] gives
    that same sequence and leaves the machine as it is (its store and its
    events included), a lookup by key gives a descriptor of the catalog
    with that key, and the grid, when rendered, follows its order. *)
Theorem metricConfigs_fixed (w : World) (actions : list Action)
    (m : Machine World) :
  runM actions (mounted w) = Some m ->
  listConfigs m = (metricConfigs, m)
  /\ List.map key (fst (listConfigs m)) =
       ["weight"; "chest"; "shoulders"; "waist"; "thigh"; "hip"; "bodyFat";
        "bicep"; "waterIntake"; "steps"]%string
  /\ List.map name (fst (listConfigs m)) =
       ["Weight"; "Chest"; "Shoulders"; "Waist"; "Thigh"; "Hip"; "Body Fat";
        "Bicep"; "Water Intake"; "Steps"]%string
  /\ List.map cunit (fst (listConfigs m)) =
       ["kg"; "in"; "in"; "in"; "in"; "in"; "%"; "in"; "L"; "steps"]%string
  /\ List.map icon (fst (listConfigs m)) =
       ["⚖️"; "💪"; "🏋️"; "📏"; "🦵"; "📐"; "📊"; "💪"; "💧"; "👣"]%string
  /\ List.map color (fst (listConfigs m)) =
       ["#3B82F6"; "#10B981"; "#F59E0B"; "#EF4444"; "#8B5CF6"; "#EC4899";
        "#06B6D4"; "#84CC16"; "#0EA5E9"; "#F97316"]%string
  /\ NoDup (List.map key (fst (listConfigs m)))
  /\ (forall k config, findIn (fst (listConfigs m)) k = Some config ->
        In config metricConfigs /\ key config = k)
  /\ (forall cards, metricsGrid (fst (listConfigs m)) (screen m) = Some cards ->
        List.map card_key cards = List.map key metricConfigs).
Proof.
  intros H.
  destruct (run_sound w actions _ _ (mounted_sound w) H) as (Hc & _).
  unfold listConfigs. cbn [fst]. rewrite Hc.
  split; [reflexivity|]. do 5 (split; [reflexivity|]).
  split; [apply (bool_decide_unpack _); vm_compute; exact I|].
  split; [intros k config; apply findIn_Some|].
  intros cards. unfold metricsGrid.
  destruct (gridShown (screen m)); [|discriminate].
  intros E. injection E as <-. reflexivity.
Qed.

(** X15: run without anything in between, the phases of a save (the
    press, the settling of [addMetricEntry], the settling of the reload)
    leave the screen, the store and the events that [handleSaveEntry]
    gives when run to completion. *)
Theorem save_settles (m : Machine World) :
  modalShown (screen m) = true ->
  let n := length (pending m) in
  exists actions,
    (actions = [PressSave] \/ actions = [PressSave; Resume n]
     \/ actions = [PressSave; Resume n; Resume n])
    /\ runM actions m =
       Some (mkMachine (fst (fst (save (screen m) (world m))))
               (snd (fst (save (screen m) (world m))))
               (catalog m) (pending m)
               (log m ++ snd (save (screen m) (world m)))).
Proof.
  intros Hm n.
  assert (Hlook : forall t, (pending m ++ [t]) !! n = Some t).
  { intros t. apply list_lookup_middle. reflexivity. }
  assert (Hdel : forall t, delete n (pending m ++ [t]) = pending m).
  { intros t. subst n. rewrite delete_middle. apply app_nil_r. }
  unfold handleSaveEntry, loadMetrics.
  destruct (negb (isSelected (selectedMetric (screen m)))
            || negb (JsString.truthy (JsString.trim (newValue (screen m)))))
    eqn:Eg.
  { exists [PressSave]. split; [auto|]. cbn [run step fst snd].
    rewrite Hm. unfold pressSave. rewrite Eg. reflexivity. }
  destruct (Number.isNaN (JsString.parseFloat (newValue (screen m)))) eqn:En.
  { exists [PressSave]. split; [auto|]. cbn [run step fst snd].
    rewrite Hm. unfold pressSave. rewrite Eg, En. reflexivity. }
  set (k := default EmptyString (selectedMetric (screen m))).
  set (v := JsString.parseFloat (newValue (screen m))).
  destruct (addMetricEntry k v (world m)) as [[e|] w1] eqn:Ea.
  - exists [PressSave; Resume n]. split; [auto|]. cbn [run step].
    rewrite Hm. unfold pressSave. rewrite Eg, En.
    fold k v. cbn [screen world catalog pending log].
    rewrite Hlook, Hdel. cbn [resume world screen catalog pending log].
    rewrite Ea. cbn [fst snd]. f_equal. f_equal.
    now rewrite <- app_assoc.
  - exists [PressSave; Resume n; Resume n]. split; [auto|]. cbn [run step].
    rewrite Hm. unfold pressSave. rewrite Eg, En.
    fold k v. cbn [screen world catalog pending log].
    rewrite Hlook, Hdel. cbn [resume world screen catalog pending log].
    rewrite Ea. cbn [screen world catalog pending log].
    rewrite Hlook, Hdel. cbn [resume world screen catalog pending log].
    destruct (getMetrics w1) as [[err|d] w2]; cbn [finishLoad fst snd];
      f_equal; f_equal; cbn [metrics selectedMetric loading];
      now rewrite <- !app_assoc.
Qed.

End MachineFacts.

(** ** The grid of cards *)

(** X10: the overview is rendered only while no metric is selected, so the
    grid, when it is rendered, shows the ten cards of the catalog in its
    order with none of them highlighted; with a metric selected there is
    no grid. *)
Theorem grid_never_highlights (s : ScreenState) :
  (forall cards, metricsGrid metricConfigs s = Some cards ->
     List.map card_key cards = List.map key metricConfigs
     /\ Forall (fun card => card_selected card = false) cards)
  /\ (isSelected (selectedMetric s) = true ->
      metricsGrid metricConfigs s = None)
  /\ (loading s = true -> metricsGrid metricConfigs s = None).
Proof.
  unfold metricsGrid, gridShown, interactive. split; [|split].
  - intros cards.
    destruct (loading s); [discriminate|]. cbn [negb andb].
    destruct (isSelected (selectedMetric s)) eqn:Es; [discriminate|].
    cbn [negb]. intros E.
    assert (Hcards : cards = List.map (renderMetricCard s) metricConfigs)
      by congruence.
    subst cards. clear E. split; [reflexivity|].
    apply Forall_forall. intros card Hin.
    apply list_elem_of_In, in_map_iff in Hin as (config & <- & Hc).
    unfold renderMetricCard. cbn [card_selected].
    destruct (selectedMetric s) as [k|]; [|reflexivity].
    unfold isSelected in Es. apply negb_false_iff, String.eqb_eq in Es.
    subst k. apply String.eqb_neq. intros E.
    now apply (catalog_key_nonempty config Hc).
  - intros ->. now rewrite andb_false_r.
  - now intros ->.
Qed.

Lemma grid_never_highlights_witness :
  let s := mkScreen {[ "weight"%string := Sample.three ]}
             (Some "weight"%string) false [] false in
  metricsGrid metricConfigs s = None
  /\ exists cards,
       metricsGrid metricConfigs (handleBack s) = Some cards
       /\ Forall (fun card => card_selected card = false) cards.
Proof.
  intros s.
  destruct (grid_never_highlights s) as (_ & H2 & _).
  split; [apply H2; reflexivity|].
  destruct (grid_never_highlights (handleBack s)) as (H1 & _).
  eexists. split; [reflexivity|]. now apply H1.
Defined.

(** ** Sample runs *)

(** A run on a store that holds a weight: the load settles, the weight
    card is pressed, then the add button; a value is typed and the save
    button pressed twice before anything settles; then the four promises
    settle. *)
Lemma interaction_safe_witness :
  exists m,
    run Sample.getMetrics Sample.addMetricEntry
      [Resume 0; PressCard 0; PressAdd; ChangeText (JsString.lit "70.5");
       PressSave; PressSave; Resume 0; Resume 0; Resume 0; Resume 0]
      (mounted Sample.stocked) = Some m
    /\ forwarded Storage.Store (screen m, world m, log m)
       = [("weight"%string, 70.5%float); ("weight"%string, 70.5%float)]
    /\ In "weight"%string (List.map key metricConfigs)
    /\ length (Storage.entries_of "weight" (metrics (screen m))) = 5%nat.
Proof.
  destruct (run Sample.getMetrics Sample.addMetricEntry
              [Resume 0; PressCard 0; PressAdd;
               ChangeText (JsString.lit "70.5");
               PressSave; PressSave; Resume 0; Resume 0; Resume 0; Resume 0]
              (mounted Sample.stocked)) as [m|] eqn:E.
  - exists m. split; [reflexivity|].
    destruct (interaction_safe Sample.getMetrics Sample.addMetricEntry
                _ _ _ E) as (_ & Hlog & _).
    assert (Hm : forwarded Storage.Store (screen m, world m, log m)
                 = [("weight"%string, 70.5%float); ("weight"%string, 70.5%float)]
                 /\ length (Storage.entries_of "weight" (metrics (screen m)))
                    = 5%nat).
    { vm_compute in E. injection E as <-. vm_compute. split; reflexivity. }
    destruct Hm as [Hf Hn]. split; [exact Hf|]. split; [|exact Hn].
    apply (Hlog "weight"%string 70.5%float).
    unfold forwarded in Hf. cbn [snd] in Hf.
    assert (Hin : In ("weight"%string, 70.5%float)
              (omap (fun ev => match ev with
                               | CallAddMetricEntry k v => Some (k, v)
                               | _ => None
                               end) (log m))).
    { rewrite Hf. now left. }
    apply list_elem_of_In, list_elem_of_omap in Hin as (ev & Hev & Heq).
    destruct ev; try discriminate Heq. injection Heq as -> ->.
    now apply list_elem_of_In.
  - apply (f_equal (fun o => match o with Some _ => true | None => false end))
      in E.
    vm_compute in E. discriminate E.
Defined.

Lemma metricConfigs_fixed_witness :
  exists m,
    run Sample.getMetrics Sample.addMetricEntry
      [Resume 0; PressCard 0; PressAdd; ChangeText (JsString.lit "70.5");
       PressSave; Resume 0; Resume 0; PressBack]
      (mounted Sample.stocked) = Some m
    /\ listConfigs m = (metricConfigs, m)
    /\ (List.map card_key <$> metricsGrid (catalog m) (screen m))
       = Some (List.map key metricConfigs).
Proof.
  destruct (run Sample.getMetrics Sample.addMetricEntry
              [Resume 0; PressCard 0; PressAdd;
               ChangeText (JsString.lit "70.5");
               PressSave; Resume 0; Resume 0; PressBack]
              (mounted Sample.stocked)) as [m|] eqn:E.
  - exists m. split; [reflexivity|].
    destruct (metricConfigs_fixed Sample.getMetrics Sample.addMetricEntry
                _ _ _ E) as (Hlist & _ & _ & _ & _ & _ & _ & _ & Hgrid).
    split; [exact Hlist|].
    unfold listConfigs in Hgrid. cbn [fst] in Hgrid.
    destruct (metricsGrid (catalog m) (screen m)) as [cards|] eqn:Eg.
    + simpl. f_equal. now apply Hgrid.
    + exfalso.
      apply (f_equal (fun o : option (list MetricCard) =>
                        match o with Some _ => true | None => false end))
        in Eg.
      vm_compute in E. injection E as <-. vm_compute in Eg. discriminate Eg.
  - apply (f_equal (fun o => match o with Some _ => true | None => false end))
      in E.
    vm_compute in E. discriminate E.
Defined.

Lemma save_settles_witness :
  let m := mkMachine (Sample.typing "70.5") Sample.fresh metricConfigs [] [] in
  exists actions m',
    run Sample.getMetrics Sample.addMetricEntry actions m = Some m'
    /\ length actions = 3%nat
    /\ (screen m', world m', log m')
       = handleSaveEntry _ _ Sample.getMetrics Sample.addMetricEntry
           (Sample.typing "70.5") Sample.fresh.
Proof.
  intros m.
  destruct (save_settles Sample.getMetrics Sample.addMetricEntry m eq_refl)
    as (actions & Hacts & Hrun).
  exists actions. eexists. split; [exact Hrun|]. split.
  2:{ cbn [screen world log m app].
      now destruct (handleSaveEntry _ _ _ _ _ _) as [[s' w'] events]. }
  destruct Hacts as [->|[->| ->]]; [exfalso|exfalso|reflexivity].
  - apply (f_equal (fun o => length <$> (log <$> o))) in Hrun.
    vm_compute in Hrun. discriminate Hrun.
  - apply (f_equal (fun o => length <$> (log <$> o))) in Hrun.
    vm_compute in Hrun. discriminate Hrun.
Defined.
(** ** The overview counters as sums *)

Section OverviewFacts.

Lemma length_filter_sum {A} (f : A -> bool) (l : list A) :
  length (List.filter f l) =
    sum_list_with (fun x => if f x then 1 else 0)%nat l.
Proof.
  induction l as [|x l IH]; [reflexivity|]. cbn.
  destruct (f x); cbn; now rewrite IH.
Qed.

Lemma fold_left_sum {A} (f : A -> nat) (l : list A) (acc : nat) :
  fold_left (fun total x => (total + f x)%nat) l acc =
    (acc + sum_list_with f l)%nat.
Proof.
  revert acc. induction l as [|x l IH]; intros acc; cbn; [lia|].
  rewrite IH. lia.
Qed.

Lemma activeMetrics_sum d :
  activeMetrics d = sum_list_with activeShare (Object_values d).
Proof. unfold activeMetrics. apply length_filter_sum. Qed.

Lemma improvingCount_sum d :
  improvingCount d = sum_list_with improvingShare (Object_values d).
Proof. unfold improvingCount. apply length_filter_sum. Qed.

Lemma overviewTotalEntries_sum d :
  overviewTotalEntries d =
    sum_list_with (fun m => length (entries m)) (Object_values d).
Proof. unfold overviewTotalEntries. now rewrite fold_left_sum. Qed.

Lemma sum_list_with_le {A} (f g : A -> nat) (l : list A) :
  (forall x, f x <= g x)%nat -> (sum_list_with f l <= sum_list_with g l)%nat.
Proof.
  intros H. induction l as [|x l IH]; cbn; [lia|]. specialize (H x). lia.
Qed.

Lemma sum_list_with_scale {A} (f : A -> nat) (c : nat) (l : list A) :
  sum_list_with (fun x => c * f x)%nat l = (c * sum_list_with f l)%nat.
Proof. induction l as [|x l IH]; cbn; [lia|]. rewrite IH. lia. Qed.

Lemma sum_list_with_one {A} (l : list A) :
  sum_list_with (fun _ => 1%nat) l = length l.
Proof. induction l as [|x l IH]; cbn; [reflexivity|]. now rewrite IH. Qed.

Lemma improvingShare_le m :
  (improvingShare m <= activeShare m)%nat
  /\ (2 * improvingShare m <= length (entries m))%nat.
Proof.
  unfold improvingShare, activeShare, isImproving.
  destruct (entries m) as [|e0 [|e1 rest]]; simpl; try lia.
  destruct (Number.gt _ _); lia.
Qed.

Lemma activeShare_le m :
  (activeShare m <= 1)%nat /\ (activeShare m <= length (entries m))%nat.
Proof.
  unfold activeShare. destruct (entries m); simpl; lia.
Qed.

(** [Object.values] after an assignment to one key. *)
Lemma Object_values_insert (d : MetricData) k m :
  Object_values (<[k := m]> d) ≡ₚ m :: Object_values (delete k d).
Proof.
  unfold Object_values. rewrite <- (insert_delete_eq d k m).
  rewrite map_to_list_insert by apply lookup_delete_eq. reflexivity.
Qed.

Lemma Object_values_lookup (d : MetricData) k m :
  d !! k = Some m -> Object_values d ≡ₚ m :: Object_values (delete k d).
Proof.
  intros H. rewrite <- (insert_id d k m H) at 1. apply Object_values_insert.
Qed.

(** X5: the overview counters are consistent with one another: the
    improving metrics are among the active ones, the active ones among the
    recorded ones, every active metric accounts for one entry at least and
    every improving one for two. *)
Theorem overview_bounds (d : MetricData) :
  (improvingCount d <= activeMetrics d)%nat
  /\ (activeMetrics d <= size d)%nat
  /\ (activeMetrics d <= overviewTotalEntries d)%nat
  /\ (2 * improvingCount d <= overviewTotalEntries d)%nat.
Proof.
  rewrite improvingCount_sum, activeMetrics_sum, overviewTotalEntries_sum.
  split; [|split; [|split]].
  - apply sum_list_with_le. intros m. apply improvingShare_le.
  - rewrite <- length_map_to_list.
    unfold Object_values. rewrite <- (length_fmap snd (map_to_list d)).
    rewrite <- sum_list_with_one.
    apply sum_list_with_le. intros m. apply activeShare_le.
  - apply sum_list_with_le. intros m. apply activeShare_le.
  - rewrite <- sum_list_with_scale.
    apply sum_list_with_le. intros m. apply improvingShare_le.
Qed.

(** X6: recording the metric [m] under the key [k] changes each overview
    counter by the share of [m] minus the share of the metric the key held
    before (nothing for a new key); the metrics of the other keys count as
    before. *)
Theorem overview_update (d : MetricData) (k : string) (m : Metric) :
  let before (share : Metric -> nat) := from_option share 0%nat (d !! k) in
  (activeMetrics (<[k := m]> d) + before activeShare
     = activeMetrics d + activeShare m)%nat
  /\ (improvingCount (<[k := m]> d) + before improvingShare
     = improvingCount d + improvingShare m)%nat
  /\ (overviewTotalEntries (<[k := m]> d)
        + before (fun m => length (entries m))
     = overviewTotalEntries d + length (entries m))%nat.
Proof.
  cbv zeta.
  rewrite !improvingCount_sum, !activeMetrics_sum, !overviewTotalEntries_sum.
  rewrite !(Object_values_insert d k m). cbn [sum_list_with].
  destruct (d !! k) as [m0|] eqn:E; simpl.
  - rewrite !(Object_values_lookup d k m0 E). cbn [sum_list_with]. lia.
  - rewrite (delete_id d k E). lia.
Qed.

End OverviewFacts.

(** ** The detail view *)

Lemma map_as_fmap {A B} (f : A -> B) (l : list A) : List.map f l = f <$> l.
Proof. reflexivity. Qed.

Lemma rev_as_reverse {A} (l : list A) : rev l = reverse l.
Proof. unfold reverse. apply rev_alt. Qed.

(** X7: the detail view of a recorded metric lists the ten newest entries
    at most, newest first and in the order of the entries; the chart plots
    exactly the listed entries, oldest first, so it ends with the newest
    entry, and it is drawn only when the metric has two entries at least.
    The statistics are those of the whole metric. *)
Theorem detail_window (s : ScreenState) (k : string) (config : MetricConfig)
    (metric : Metric) :
  selectedMetric s = Some k -> k <> EmptyString ->
  findConfig k = Some config ->
  metrics s !! k = Some metric ->
  exists d,
    renderMetricDetail s = Some d
    /\ length (detail_history d) = Nat.min 10 (length (entries metric))
    /\ (forall i, (i < 10)%nat ->
          detail_history d !! i =
            (fun e => (date e, time e, (value e, unit e)))
              <$> entries metric !! i)
    /\ (is_Some (detail_chart d) <-> (2 <= length (entries metric))%nat)
    /\ (forall chart, detail_chart d = Some chart ->
          chart = rev (List.map (fun row => (fst (fst row), fst (snd row)))
                         (detail_history d))
          /\ last chart = (fun e => (date e, value e)) <$> head (entries metric))
    /\ detail_statistics d = statistics metric.
Proof.
  intros Hk Hne Hc Hm. apply String.eqb_neq in Hne.
  unfold renderMetricDetail, isSelected. rewrite Hk, Hne, Hc, Hm. cbn [negb].
  eexists. split; [reflexivity|].
  cbn [detail_history detail_chart detail_statistics].
  set (es := entries metric).
  split; [|split; [|split; [|split; [|reflexivity]]]].
  - rewrite length_map. apply length_take.
  - intros i Hi. rewrite map_as_fmap, list_lookup_fmap.
    now rewrite lookup_take_lt.
  - rewrite length_map, length_rev, length_take.
    destruct (1 <? Nat.min 10 (length es))%nat eqn:E.
    + apply Nat.ltb_lt in E. split; [lia|]. intros _. eexists. reflexivity.
    + apply Nat.ltb_ge in E. split; [|lia]. intros [x Hx]. discriminate Hx.
  - intros chart. rewrite length_map, length_rev.
    destruct (1 <? _)%nat; [|discriminate]. intros H. inversion H; subst chart.
    clear H. split.
    + rewrite List.map_map. simpl. now rewrite map_rev.
    + rewrite map_as_fmap, rev_as_reverse, fmap_last, last_reverse.
      destruct es as [|e es']; reflexivity.
Qed.

Lemma detail_window_witness :
  let s := mkScreen {[ "weight"%string := Sample.twelve ]}
             (Some "weight"%string) false [] false in
  exists d,
    renderMetricDetail s = Some d
    /\ length (detail_history d) = 10%nat
    /\ detail_chart d ≫= last = Some ("1/5/2025"%string, 10%float).
Proof.
  intros s.
  destruct (detail_window s "weight"
              (mkConfig "weight" "Weight" "kg" "⚖️" "#3B82F6") Sample.twelve)
    as (d & Hd & Hlen & _ & Hsome & Hchart & _);
    [reflexivity|discriminate|reflexivity|reflexivity|].
  exists d. split; [exact Hd|]. split; [exact Hlen|].
  destruct (detail_chart d) as [chart|] eqn:E.
  - destruct (Hchart chart eq_refl) as [_ Hlast]. simpl. exact Hlast.
  - destruct (proj2 Hsome) as [x Hx]; [simpl; lia|discriminate Hx].
Defined.

(** X8: a key without a record shows the placeholder on its card, with no
    trend and no timestamp; selecting it gives no detail view (hence no
    statistics and no add button), and the hint of the modal shows the
    placeholder. No detail view is given without a selection either. *)
Theorem unrecorded_metric (s : ScreenState) (config : MetricConfig) :
  metrics s !! key config = None ->
  (card_value (renderMetricCard s config) = Str "--"
   /\ card_change (renderMetricCard s config) = None
   /\ card_lastUpdated (renderMetricCard s config) = None)
  /\ (selectedMetric s = Some (key config) ->
      renderMetricDetail s = None
      /\ (key config <> EmptyString -> inputHintValue s = Some (Str "--")))
  /\ (selectedMetric s = None -> renderMetricDetail s = None).
Proof.
  intros Hm. split; [|split].
  - unfold renderMetricCard. simpl. now rewrite Hm.
  - intros Hk. split.
    + unfold renderMetricDetail. rewrite Hk.
      destruct (negb _); [reflexivity|]. rewrite Hm.
      now destruct (findConfig (key config)).
    + intros Hne. apply String.eqb_neq in Hne.
      unfold inputHintValue, isSelected. now rewrite Hk, Hne, Hm.
  - intros Hk. unfold renderMetricDetail. now rewrite Hk.
Qed.

Lemma unrecorded_metric_witness :
  let s := mkScreen {[ "weight"%string := Sample.three ]}
             (Some "chest"%string) true [] false in
  card_value (renderMetricCard s (mkConfig "chest" "Chest" "in" "💪" "#10B981"))
    = Str "--"
  /\ renderMetricDetail s = None.
Proof.
  intros s.
  destruct (unrecorded_metric s (mkConfig "chest" "Chest" "in" "💪" "#10B981")
              eq_refl) as ((H1 & _) & H2 & _).
  split; [exact H1|]. exact (proj1 (H2 eq_refl)).
Defined.

(** ** The sign of a difference *)

Section DifferenceSign.

Local Open Scope Z_scope.

Lemma digits2_bounds m :
  2 ^ (Zpos (digits2_pos m) - 1) <= Zpos m < 2 ^ Zpos (digits2_pos m).
Proof.
  induction m as [p IH|p IH|]; cbn [digits2_pos].
  - rewrite Pos2Z.inj_succ, Z.pow_succ_r by lia.
    replace (Z.succ (Zpos (digits2_pos p)) - 1)
      with (Z.succ (Zpos (digits2_pos p) - 1)) by lia.
    rewrite Z.pow_succ_r by lia. lia.
  - rewrite Pos2Z.inj_succ, Z.pow_succ_r by lia.
    replace (Z.succ (Zpos (digits2_pos p)) - 1)
      with (Z.succ (Zpos (digits2_pos p) - 1)) by lia.
    rewrite Z.pow_succ_r by lia. lia.
  - simpl. lia.
Qed.

(** A valid binary64 mantissa has 53 digits at most, and exactly 53 above
    the least exponent. *)
Lemma valid_finite s m e :
  SpecFloat.valid_binary prec emax (S754_finite s m e) = true ->
  -1074 <= e /\ Zpos m < 2 ^ 53 /\ (-1074 < e -> 2 ^ 52 <= Zpos m).
Proof.
  unfold SpecFloat.valid_binary, bounded, canonical_mantissa, fexp, emin, prec, emax.
  intros H. apply andb_prop in H as [H _]. apply Z.eqb_eq in H.
  pose proof (digits2_bounds m) as [Hlo Hhi].
  set (d := Zpos (digits2_pos m)) in *.
  assert (Hd : d <= 53) by lia.
  split; [lia|]. split.
  - eapply Z.lt_le_trans; [exact Hhi|]. apply Z.pow_le_mono_r; lia.
  - intros He. assert (d = 53) by lia. subst d.
    replace 52 with (53 - 1) by lia. now rewrite <- H0.
Qed.

Lemma iter_xO m d : Zpos (Pos.iter xO m d) = Zpos m * 2 ^ Zpos d.
Proof.
  induction d as [|d IH] using Pos.peano_ind.
  - simpl. lia.
  - rewrite Pos.iter_succ, Pos2Z.inj_succ, Z.pow_succ_r by lia.
    rewrite Pos2Z.inj_xO, IH. lia.
Qed.

Lemma shl_align_value m e ez :
  ez <= e -> Zpos (fst (shl_align m e ez)) = Zpos m * 2 ^ (e - ez).
Proof.
  intros H. unfold shl_align.
  destruct (ez - e) as [|p|p] eqn:E; cbn [fst].
  - replace (e - ez) with 0 by lia. simpl. lia.
  - lia.
  - rewrite iter_xO. replace (e - ez) with (Zpos p) by lia. reflexivity.
Qed.

(** Among valid values of one sign, the order on (exponent, mantissa) is
    the order of the aligned mantissas. *)
Lemma aligned_lt s1 m1 e1 s2 m2 e2 :
  SpecFloat.valid_binary prec emax (S754_finite s1 m1 e1) = true ->
  SpecFloat.valid_binary prec emax (S754_finite s2 m2 e2) = true ->
  e1 < e2 \/ (e1 = e2 /\ Zpos m1 < Zpos m2) ->
  Zpos (fst (shl_align m1 e1 (Z.min e1 e2)))
    < Zpos (fst (shl_align m2 e2 (Z.min e1 e2))).
Proof.
  intros V1 V2 H.
  apply valid_finite in V1 as (L1 & U1 & _).
  apply valid_finite in V2 as (L2 & _ & N2).
  rewrite !shl_align_value by lia.
  destruct H as [H|[-> H]].
  - rewrite Z.min_l by lia. rewrite Z.sub_diag, Z.mul_1_r.
    assert (Hp : 2 ^ 1 <= 2 ^ (e2 - e1)) by (apply Z.pow_le_mono_r; lia).
    specialize (N2 ltac:(lia)). change (2 ^ 1) with 2 in Hp.
    change (2 ^ 53) with (2 ^ 52 * 2) in U1. nia.
  - rewrite Z.min_id, Z.sub_diag. lia.
Qed.

Lemma shr_1_nonneg mrs : 0 <= shr_m mrs -> 0 <= shr_m (shr_1 mrs).
Proof.
  destruct mrs as [m r t]. simpl.
  destruct m as [|[p|p|]|[p|p|]]; simpl; lia.
Qed.

Lemma iter_pos_nonneg p : forall mrs,
  0 <= shr_m mrs -> 0 <= shr_m (SpecFloat.iter_pos shr_1 p mrs).
Proof.
  induction p as [p IH|p IH|]; intros mrs H; simpl;
    auto using shr_1_nonneg.
Qed.

Lemma shr_fexp_nonneg m e l :
  0 <= m -> 0 <= shr_m (fst (shr_fexp prec emax m e l)).
Proof.
  intros H. unfold shr_fexp, shr.
  assert (H0 : 0 <= shr_m (shr_record_of_loc m l)) by (now destruct l as [|[]]).
  destruct (fexp prec emax (Zdigits2 m + e) - e); cbn [fst]; auto.
  now apply iter_pos_nonneg.
Qed.

Lemma round_nearest_even_nonneg m l : 0 <= m -> 0 <= round_nearest_even m l.
Proof.
  intros H. destruct l as [|[]]; simpl; try lia. destruct (Z.even m); lia.
Qed.

(** Rounding a positive integer gives a zero, a finite value or the
    infinity, of positive sign. *)
Lemma binary_round_positive p e :
  SFleb (S754_zero false) (binary_round prec emax false p e) = true.
Proof.
  unfold binary_round.
  destruct (shl_align p e _) as [mz ez]. unfold binary_round_aux.
  pose proof (shr_fexp_nonneg (Zpos mz) ez loc_Exact ltac:(lia)) as H1.
  destruct (shr_fexp prec emax (Zpos mz) ez loc_Exact) as [mrs' e'].
  cbn [fst] in H1.
  pose proof (shr_fexp_nonneg
                (round_nearest_even (shr_m mrs') (loc_of_shr_record mrs'))
                e' loc_Exact (round_nearest_even_nonneg _ _ H1)) as H2.
  destruct (shr_fexp prec emax _ e' loc_Exact) as [mrs'' e''].
  cbn [fst] in H2.
  destruct (shr_m mrs'') as [|m|m]; [reflexivity| |lia].
  now destruct (e'' <=? emax - prec).
Qed.

(** A value strictly above another one leaves a difference that is
    [>= 0]. *)
Lemma gt_sub_ge a b :
  Number.gt a b = true -> Number.ge (PrimFloat.sub a b) PrimFloat.zero = true.
Proof.
  unfold Number.gt, Number.ge.
  rewrite FloatAxioms.ltb_spec, FloatAxioms.leb_spec, FloatAxioms.sub_spec.
  change (Prim2SF PrimFloat.zero) with (S754_zero false).
  pose proof (Prim2SF_valid a) as Va. pose proof (Prim2SF_valid b) as Vb.
  unfold SFltb, SF64sub.
  destruct (SFcompare (Prim2SF b) (Prim2SF a)) as [[]|] eqn:E;
    try discriminate.
  intros _.
  destruct (Prim2SF a) as [sa|sa| |sa ma ea], (Prim2SF b) as [sb|sb| |sb mb eb];
    try (simpl in E; try destruct sa; try destruct sb; discriminate E);
    try (destruct sa, sb; simpl in E; try discriminate E; reflexivity).
  unfold SFsub.
  assert (Hpos : 0 <
    cond_Zopp sa (Zpos (fst (shl_align ma ea (Z.min ea eb))))
    - cond_Zopp sb (Zpos (fst (shl_align mb eb (Z.min ea eb))))).
  { destruct sa, sb; simpl in E; try discriminate E; unfold cond_Zopp.
    - assert (H : ea < eb \/ (ea = eb /\ Zpos ma < Zpos mb)).
      { destruct (Z.compare_spec eb ea) as [->|H|H]; try discriminate E;
          [right|left; lia]. split; [reflexivity|].
        change (Pos.compare_cont Eq mb ma) with (Pos.compare mb ma) in E.
        destruct (Pos.compare_spec mb ma); try discriminate E. lia. }
      pose proof (aligned_lt _ _ _ _ _ _ Va Vb H). lia.
    - lia.
    - assert (H : eb < ea \/ (eb = ea /\ Zpos mb < Zpos ma)).
      { destruct (Z.compare_spec eb ea) as [->|H|H]; try discriminate E;
          [right|left; lia]. split; [reflexivity|].
        change (Pos.compare_cont Eq mb ma) with (Pos.compare mb ma) in E.
        destruct (Pos.compare_spec mb ma); try discriminate E. lia. }
      pose proof (aligned_lt _ _ _ _ _ _ Vb Va H) as Hlt.
      rewrite (Z.min_comm eb ea) in Hlt. lia. }
  destruct (_ - _) as [|p|p] eqn:Ez; try lia.
  unfold binary_normalize. apply binary_round_positive.
Qed.

End DifferenceSign.

(** X9: a metric counted as improving has a positive trend on its card:
    whenever the newest value is strictly greater than the previous one,
    [getMetricChange] reports [isPositive]. *)
Theorem improving_is_positive (metric : Metric) :
  isImproving metric = true ->
  isPositive <$> getMetricChange metric = Some true.
Proof.
  intros H. apply isImproving_iff in H as (e0 & e1 & rest & E & Hg).
  unfold getMetricChange. rewrite E. simpl. f_equal.
  now apply gt_sub_ge.
Qed.

Lemma improving_is_positive_witness :
  isImproving (Sample.metric [72.5; 70]%float) = true
  /\ isPositive <$> getMetricChange (Sample.metric [72.5; 70]%float) = Some true.
Proof.
  split; [reflexivity|]. apply improving_is_positive. reflexivity.
Defined.

(** ** Magnitude and extremes *)

Section MagnitudeFacts.

Local Open Scope float_scope.

Lemma isNaN_true x : Number.isNaN x = true -> x = nan.
Proof.
  intros H. apply Prim2SF_inj. change (Prim2SF nan) with S754_nan.
  destruct (Prim2SF x) eqn:E; try reflexivity;
    assert (Hn : Number.isNaN x = false)
      by (apply isNaN_false; rewrite E; discriminate);
    rewrite Hn in H; discriminate H.
Qed.

Lemma abs_nonneg x :
  Number.isNaN (abs x) = true \/ (zero <=? abs x) = true.
Proof.
  destruct (Number.isNaN (abs x)) eqn:E; [now left|right].
  apply isNaN_false in E. rewrite FloatAxioms.leb_spec.
  rewrite FloatAxioms.abs_spec in *.
  change (Prim2SF zero) with (S754_zero false).
  now destruct (Prim2SF x) as [[]|[]| |[] m e].
Qed.

Lemma string_of_uint_head u :
  exists c rest,
    DecimalString.NilZero.string_of_uint u = String c rest /\ c <> "-"%char.
Proof.
  destruct u; simpl; eexists _, _; (split; [reflexivity|discriminate]).
Qed.

Lemma point1_head m :
  (exists c rest, m = String c rest /\ c <> "-"%char) ->
  exists c rest, ToFixed.point1 m = String c rest /\ c <> "-"%char.
Proof.
  intros (c & rest & -> & Hc). unfold ToFixed.point1.
  destruct rest as [|c' rest'].
  - simpl. eexists _, _. split; [reflexivity|discriminate].
  - cbn [String.length Nat.leb]. cbn [String.length Nat.sub substring].
    cbn [String.append]. eexists _, _. split; [reflexivity|exact Hc].
Qed.

Lemma toFixed1_abs_head x t :
  ToFixed.toFixed1 (abs x) = Str t ->
  exists c rest, t = String c rest /\ c <> "-"%char.
Proof.
  unfold ToFixed.toFixed1. rewrite FloatAxioms.abs_spec.
  destruct (Prim2SF x) as [sg|sg| |sg m e]; cbn [SFabs].
  - intros H. inversion H. eexists _, _. split; [reflexivity|discriminate].
  - intros H. inversion H. eexists _, _. split; [reflexivity|discriminate].
  - intros H. inversion H. eexists _, _. split; [reflexivity|discriminate].
  - destruct (1e21 <=? abs (abs x)); [discriminate|].
    intros H. inversion H. apply point1_head. apply string_of_uint_head.
Qed.

Lemma max_singleton v : Math.max [v] = v.
Proof.
  unfold Math.max. cbn [Math.max_loop].
  destruct (Number.isNaN v) eqn:E; [symmetry; now apply isNaN_true|].
  change (Math.is_nzero neg_infinity) with false. rewrite andb_false_r.
  unfold Number.gt. destruct (neg_infinity <? v) eqn:El; [reflexivity|].
  symmetry. apply below_neg_infinity. now apply not_ltb_leb.
Qed.

Lemma min_singleton v : Math.min [v] = v.
Proof.
  unfold Math.min. cbn [Math.min_loop].
  destruct (Number.isNaN v) eqn:E; [symmetry; now apply isNaN_true|].
  change (Math.is_pzero infinity) with false. rewrite andb_false_r.
  destruct (v <? infinity) eqn:El; [reflexivity|].
  symmetry. apply above_infinity. now apply not_ltb_leb.
Qed.

End MagnitudeFacts.

(** X11: the change shown on a card carries no sign: its magnitude is
    [NaN] or [>= 0], and its text never starts with a minus; the direction
    is given by [isPositive] alone. *)
Theorem change_unsigned (metric : Metric) (c : Change) :
  getMetricChange metric = Some c ->
  (Number.isNaN (change_value c) = true
   \/ PrimFloat.leb PrimFloat.zero (change_value c) = true)
  /\ forall t, ToFixed.toFixed1 (change_value c) = Str t ->
       exists ch rest, t = String ch rest /\ ch <> "-"%char.
Proof.
  unfold getMetricChange.
  destruct (length (entries metric) <? 2)%nat; [discriminate|].
  destruct (entries metric !! 0%nat) as [e0|]; [|discriminate].
  destruct (entries metric !! 1%nat) as [e1|]; [|discriminate].
  intros H. inversion H; subst c. cbn [change_value].
  split; [apply abs_nonneg|]. intros t. apply toFixed1_abs_head.
Qed.

Lemma change_unsigned_witness :
  getMetricChange (Sample.metric [8; 10]%float) =
    Some {| change_value := 2%float; isPositive := false |}
  /\ exists ch rest,
       "2.0"%string = String ch rest /\ ch <> "-"%char.
Proof.
  split; [reflexivity|].
  destruct (change_unsigned (Sample.metric [8; 10]%float)
              {| change_value := 2%float; isPositive := false |} eq_refl)
    as [_ H].
  apply H. reflexivity.
Defined.

(** X12: a metric with a single entry has no trend and is not counted as
    improving; its highest and lowest cells both show the value of that
    entry, whatever it is, and its count is one. *)
Theorem single_entry (metric : Metric) (e : Entry) :
  entries metric = [e] ->
  getMetricChange metric = None
  /\ isImproving metric = false
  /\ totalEntries (statistics metric) = 1%nat
  /\ highest (statistics metric) = ToFixed.toFixed1 (value e)
  /\ lowest (statistics metric) = ToFixed.toFixed1 (value e).
Proof.
  intros E. unfold getMetricChange, isImproving, statistics. rewrite E.
  cbn [length Nat.ltb Nat.leb List.map].
  rewrite max_singleton, min_singleton. repeat split.
Qed.

Lemma single_entry_witness :
  getMetricChange (Sample.metric [70%float]) = None
  /\ highest (statistics (Sample.metric [70%float])) = Str "70.0".
Proof.
  destruct (single_entry (Sample.metric [70%float]) (Sample.entry 70%float)
              eq_refl) as (H1 & _ & _ & H4 & _).
  split; [exact H1|]. rewrite H4. reflexivity.
Defined.

(** X13: with entries and no [NaN] among the values, the value behind the
    lowest cell is never above the value behind the highest cell. *)
Theorem lowest_le_highest (metric : Metric) :
  entries metric <> [] ->
  Forall notNaN (List.map value (entries metric)) ->
  PrimFloat.leb (Math.min (List.map value (entries metric)))
    (Math.max (List.map value (entries metric))) = true.
Proof.
  intros Hne Hn.
  assert (Hv : List.map value (entries metric) <> []).
  { destruct (entries metric); [contradiction|discriminate]. }
  destruct (max_is_maximum _ Hv Hn) as [Hin _].
  destruct (min_is_minimum _ Hv Hn) as [_ Hall].
  rewrite Forall_forall in Hall. apply Hall. now apply list_elem_of_In.
Qed.

Lemma lowest_le_highest_witness :
  PrimFloat.leb (Math.min (List.map value (entries Sample.three)))
    (Math.max (List.map value (entries Sample.three))) = true.
Proof.
  apply lowest_le_highest; [discriminate|repeat constructor].
Defined.

(** ** Order of the values *)

(** X14: the three overview counters do not depend on the order in which
    [Object.values] lists the metrics: computed over any rearrangement of
    the values they give the same numbers. *)
Theorem overview_order_free (d : MetricData) (values : list Metric) :
  values ≡ₚ Object_values d ->
  length (List.filter (fun m => (0 <? length (entries m))%nat) values)
    = activeMetrics d
  /\ fold_left (fun total m => (total + length (entries m))%nat) values 0%nat
    = overviewTotalEntries d
  /\ length (List.filter isImproving values) = improvingCount d.
Proof.
  intros Hp.
  rewrite activeMetrics_sum, overviewTotalEntries_sum, improvingCount_sum.
  rewrite !length_filter_sum, fold_left_sum. unfold activeShare, improvingShare.
  now rewrite Hp.
Qed.

Lemma overview_order_free_witness :
  let d : MetricData :=
    <[ "weight"%string := Sample.three ]>
      {[ "chest"%string := Sample.metric [10; 8]%float ]} in
  length (List.filter isImproving (rev (Object_values d))) = improvingCount d
  /\ improvingCount d = 1%nat.
Proof.
  intros d.
  destruct (overview_order_free d (rev (Object_values d))) as (_ & _ & H).
  - rewrite rev_as_reverse. apply reverse_Permutation.
  - split; [exact H|]. vm_compute. reflexivity.
Defined.
